(** * Hero and og:image scraper (app.py): model and verified properties

    The development follows the structure of [app.py]:

    - [PyStr] : the Python string operations the program relies on
                ([str.strip], [in], [str.startswith], the regular
                expression classes [\S] and [\w]);
    - [Soup]  : the parsed document as BeautifulSoup presents it, with
                [find] and [find_all];
    - [Url]   : [urlparse(...).path] and [PurePosixPath(...).name];
    - [Zip]   : the archive written by [zipfile.ZipFile];
    - the functions of [app.py] themselves, over an explicit world: the
      store of result dicts and the trace of visible effects.

    Then come the notions the properties are stated with, sample data,
    and the properties: the scraping loop, the packager, the og image,
    the entry name and the hero image.

    Strings are sequences of code points below 256 (one [ascii] per code
    point, read as Latin-1). *)

From Stdlib Require Import ZArith NArith Ascii String List Bool Lia.
From Stdlib.Strings Require Import Byte.
From stdpp Require Import base option list strings gmap.

Open Scope string_scope.
Open Scope list_scope.

Set Warnings "-register-all".

(* ===================================================================== *)
(** ** Python strings *)
(* ===================================================================== *)

Module PyStr.

(** Truth value of a string in a condition: empty strings are false. *)
Definition truthy (s : string) : bool :=
  match s with EmptyString => false | String _ _ => true end.

(** [str.isspace] on one code point below 256: TAB, LF, VT, FF, CR, the
    four information separators 28..31, SPACE, NEL (133) and NBSP (160). *)
Definition is_space (a : ascii) : bool :=
  let n := N_of_ascii a in
  (((9 <=? n) && (n <=? 13)) || ((28 <=? n) && (n <=? 32))
   || (n =? 133) || (n =? 160))%N.

Fixpoint lstrip (s : string) : string :=
  match s with
  | EmptyString => EmptyString
  | String a s' => if is_space a then lstrip s' else s
  end.

Fixpoint rstrip (s : string) : string :=
  match s with
  | EmptyString => EmptyString
  | String a s' =>
      let r := rstrip s' in
      if is_space a && negb (truthy r) then EmptyString else String a r
  end.

(** [s.strip()] *)
Definition strip (s : string) : string := rstrip (lstrip s).

(** [s.startswith(p)] *)
Definition startswith (s p : string) : bool := String.prefix p s.

(** [needle in hay] on two strings: substring test. *)
Fixpoint contains (needle hay : string) : bool :=
  String.prefix needle hay
  || match hay with
     | EmptyString => false
     | String _ hay' => contains needle hay'
     end.

(** [re.findall(r"\S+", s)]: the maximal runs of non-space characters. *)
Fixpoint tokens_from (cur : string) (s : string) : list string :=
  match s with
  | EmptyString => if truthy cur then [cur] else []
  | String a s' =>
      if is_space a
      then (if truthy cur then [cur] else []) ++ tokens_from EmptyString s'
      else tokens_from (cur ++ String a EmptyString) s'
  end.

Definition split_ws (s : string) : list string := tokens_from EmptyString s.

(** [sep.join(l)] *)
Definition join (sep : string) (l : list string) : string := String.concat sep l.

(** [s.split(sep)] for a one-character separator: the pieces between
    consecutive separators, empty ones included. *)
Fixpoint split_from (sep : ascii) (cur : string) (s : string) : list string :=
  match s with
  | EmptyString => [cur]
  | String a s' =>
      if Ascii.eqb a sep
      then cur :: split_from sep EmptyString s'
      else split_from sep (cur ++ String a EmptyString) s'
  end.

Definition split (sep : ascii) (s : string) : list string :=
  split_from sep EmptyString s.

(** [s.find(c)] as a split: the text before the first [c] and, when [c]
    occurs, the text after it. *)
Fixpoint cut (c : ascii) (s : string) : string * option string :=
  match s with
  | EmptyString => (EmptyString, None)
  | String a s' =>
      if Ascii.eqb a c then (EmptyString, Some s')
      else let '(pre, post) := cut c s' in (String a pre, post)
  end.

Definition in_range (lo hi : N) (a : ascii) : bool :=
  let n := N_of_ascii a in ((lo <=? n) && (n <=? hi))%N.

Definition is_ascii_alpha (a : ascii) : bool :=
  in_range 65 90 a || in_range 97 122 a.

Definition is_ascii_digit (a : ascii) : bool := in_range 48 57 a.

(** The class [\w] of a [str] pattern: alphanumeric in the Unicode
    database, or the underscore. Below 256 the alphanumerics are the
    ASCII letters and digits, the ordinal indicators 170 and 186, the
    superscripts 178, 179 and 185, the micro sign 181, the fractions
    188..190, and the Latin-1 letters 192..255 without the signs 215
    and 247. *)
Definition is_word (a : ascii) : bool :=
  let n := N_of_ascii a in
  is_ascii_alpha a || is_ascii_digit a || (n =? 95)%N
  || (n =? 170)%N || (n =? 178)%N || (n =? 179)%N || (n =? 181)%N
  || (n =? 185)%N || (n =? 186)%N || in_range 188 190 a
  || (in_range 192 255 a && negb (n =? 215)%N && negb (n =? 247)%N).

(** [re.sub(r"[^\w\-]", "_", s)] *)
Fixpoint sub_non_word (s : string) : string :=
  match s with
  | EmptyString => EmptyString
  | String a s' =>
      String (if is_word a || Ascii.eqb a "-" then a else "_"%char)
             (sub_non_word s')
  end.

(** [s.lower()] on ASCII letters (the scheme of a URL is ASCII). *)
Definition lower_char (a : ascii) : ascii :=
  if in_range 65 90 a then ascii_of_N (N_of_ascii a + 32) else a.

Fixpoint lower (s : string) : string :=
  match s with
  | EmptyString => EmptyString
  | String a s' => String (lower_char a) (lower s')
  end.

Fixpoint all_chars (p : ascii -> bool) (s : string) : bool :=
  match s with
  | EmptyString => true
  | String a s' => p a && all_chars p s'
  end.

Fixpoint remove_chars (p : ascii -> bool) (s : string) : string :=
  match s with
  | EmptyString => EmptyString
  | String a s' => if p a then remove_chars p s' else String a (remove_chars p s')
  end.

Fixpoint lstrip_chars (p : ascii -> bool) (s : string) : string :=
  match s with
  | EmptyString => EmptyString
  | String a s' => if p a then lstrip_chars p s' else s
  end.

End PyStr.

(* ===================================================================== *)
(** ** The parsed document *)
(* ===================================================================== *)

Module Soup.

(** A node of the tree built by [BeautifulSoup(text, "lxml")]: a text
    node or a tag with its attribute dictionary and its children. The
    dictionary holds the attribute text as written in the page; the
    builder presents [class] as its list of whitespace-separated tokens
    ([get_class]) and [src], [content] and [property] as plain strings
    ([get_attr]). The document itself is the tag named [[document]]. *)
Inductive PageElement : Type :=
| NavigableString (text : string)
| Tag (name : string) (attrs : gmap string string) (contents : list PageElement).

Definition is_named (n : string) (e : PageElement) : bool :=
  match e with
  | NavigableString _ => false
  | Tag name _ _ => String.eqb name n
  end.

(** [tag.get(key)] for a string-valued attribute. *)
Definition get_attr (e : PageElement) (key : string) : option string :=
  match e with
  | NavigableString _ => None
  | Tag _ attrs _ => attrs !! key
  end.

(** [tag.get("class")]: the token list, or nothing without the attribute. *)
Definition get_class (e : PageElement) : option (list string) :=
  PyStr.split_ws <$> get_attr e "class".

(** [tag.descendants]: every node below the tag, in document order. *)
Fixpoint descendants (e : PageElement) : list PageElement :=
  match e with
  | NavigableString _ => []
  | Tag _ _ cs =>
      (fix below (l : list PageElement) : list PageElement :=
         match l with
         | [] => []
         | c :: l' => c :: descendants c ++ below l'
         end) cs
  end.

(** A [class_] filter given as a function: the library calls it with
    nothing when the attribute is missing, otherwise with each token in
    turn and then with the tokens joined by single spaces. *)
Definition class_matches (f : option string -> bool) (e : PageElement) : bool :=
  match get_class e with
  | None => f None
  | Some toks =>
      existsb (fun t => f (Some t)) toks || f (Some (PyStr.join " " toks))
  end.

(** A keyword filter given as a string on a string-valued attribute. *)
Definition attr_equals (key value : string) (e : PageElement) : bool :=
  match get_attr e key with
  | None => false
  | Some v => String.eqb v value
  end.

(** [tag.find_all(name, <filter>)] *)
Definition find_all (e : PageElement) (name : string)
           (flt : PageElement -> bool) : list PageElement :=
  List.filter (fun d => is_named name d && flt d) (descendants e).

(** [tag.find(name, <filter>)]: the first result of [find_all], if any. *)
Definition find (e : PageElement) (name : string)
           (flt : PageElement -> bool) : option PageElement :=
  head (find_all e name flt).

End Soup.

Import Soup.

(** Building documents in examples. *)
Definition elem (name : string) (attrs : list (string * string))
           (contents : list PageElement) : PageElement :=
  Tag name (list_to_map attrs) contents.

Definition document (contents : list PageElement) : PageElement :=
  Tag "[document]" ∅ contents.

(* ===================================================================== *)
(** ** The extractors of app.py *)
(* ===================================================================== *)

(** [c and <test on c>] where [c] is nothing or a string. *)
Definition py_and (c : option string) (test : string -> bool) : bool :=
  match c with
  | None => false
  | Some s => PyStr.truthy s && test s
  end.

Definition required_classes : list string :=
  ["s_col"; "col-md-6"; "d-md-flex"; "flex-column"; "align-items-md-end"].

(** [lambda c: c and all(rc in c for rc in required_classes)] *)
Definition has_required_classes (c : option string) : bool :=
  py_and c (fun s => forallb (fun rc => PyStr.contains rc s) required_classes).

(** [lambda c: c and "no_lazy" in c] *)
Definition has_no_lazy (c : option string) : bool :=
  py_and c (PyStr.contains "no_lazy").

(** [lambda c: c and "s_col" in c] *)
Definition has_s_col (c : option string) : bool :=
  py_and c (PyStr.contains "s_col").

(** [if tag and tag.get(key): return tag[key].strip()], the tag found or
    not; a tag that was found counts as true whatever it holds. *)
Definition stripped_attr (tag : option PageElement) (key : string) : option string :=
  match tag with
  | None => None
  | Some t =>
      match get_attr t key with
      | None => None
      | Some v => if PyStr.truthy v then Some (PyStr.strip v) else None
      end
  end.

Definition extract_og_image (soup : PageElement) : option string :=
  let tag := find soup "meta" (attr_equals "property" "og:image") in
  stripped_attr tag "content".

(** The body of the fallback loop, for the divs still to visit. *)
Fixpoint hero_fallback (divs : list PageElement) : option string :=
  match divs with
  | [] => None
  | div :: rest =>
      let img := find div "img" (class_matches has_no_lazy) in
      match stripped_attr img "src" with
      | Some src => Some src
      | None => hero_fallback rest
      end
  end.

Definition extract_hero_image (soup : PageElement) : option string :=
  let container := find soup "div" (class_matches has_required_classes) in
  let primary :=
    match container with
    | None => None
    | Some c => stripped_attr (find c "img" (class_matches has_no_lazy)) "src"
    end in
  match primary with
  | Some src => Some src
  | None => hero_fallback (find_all soup "div" (class_matches has_s_col))
  end.

(** The pages of section 8 of the specification. *)
Definition page_primary : PageElement :=
  document
    [elem "html" []
       [elem "head" []
          [elem "meta" [("property", "og:image"); ("content", " https://x/img.png ")] []];
        elem "body" []
          [elem "div" [("class", "s_col col-md-6 d-md-flex flex-column align-items-md-end extra-token")]
             [elem "img" [("class", "no_lazy extra"); ("src", "https://x/hero.jpg")] []]]]].

Definition page_fallback : PageElement :=
  document
    [elem "html" []
       [elem "body" []
          [elem "div" [("class", "s_col")]
             [NavigableString "hero";
              elem "img" [("class", "no_lazy"); ("src", "https://x/h2.jpg")] []]]]].

(* ===================================================================== *)
(** ** URL paths and file names *)
(* ===================================================================== *)

Module Url.

Definition scheme_char (a : ascii) : bool :=
  PyStr.is_ascii_alpha a || PyStr.is_ascii_digit a
  || Ascii.eqb a "+" || Ascii.eqb a "-" || Ascii.eqb a ".".

Definition uses_params : list string :=
  [""; "ftp"; "hdl"; "prospero"; "http"; "imap"; "https"; "shttp"; "rtsp";
   "rtspu"; "sip"; "sips"; "mms"; "sftp"; "tel"].

Definition first_is (p : ascii -> bool) (s : string) : bool :=
  match s with EmptyString => false | String a _ => p a end.

(** The scheme and what follows its colon; no scheme when the text before
    the first colon is empty, does not start with a letter or holds a
    character a scheme cannot have. *)
Definition split_scheme (url : string) : string * string :=
  match PyStr.cut ":" url with
  | (pre, Some rest) =>
      if first_is PyStr.is_ascii_alpha pre && PyStr.all_chars scheme_char pre
      then (PyStr.lower pre, rest)
      else (EmptyString, url)
  | (_, None) => (EmptyString, url)
  end.

(** [_splitnetloc(url, 2)]: after a leading [//] the network location
    runs up to the first of [/], [?] and [#]. *)
Fixpoint rest_after_netloc (s : string) : string :=
  match s with
  | EmptyString => EmptyString
  | String a s' =>
      if Ascii.eqb a "/" || Ascii.eqb a "?" || Ascii.eqb a "#"
      then s else rest_after_netloc s'
  end.

Definition drop_netloc (url : string) : string :=
  match url with
  | String "/" (String "/" rest) => rest_after_netloc rest
  | _ => url
  end.

Fixpoint map_last {A} (f : A -> A) (l : list A) : list A :=
  match l with
  | [] => []
  | [x] => [f x]
  | x :: l' => x :: map_last f l'
  end.

(** [_splitparams]: the parameters start at the first [;] of the last
    segment. *)
Definition drop_params (path : string) : string :=
  PyStr.join "/" (map_last (fun seg => fst (PyStr.cut ";" seg)) (PyStr.split "/" path)).

(** [urlparse(url).path], for a URL that [urlparse] accepts. Leading
    control characters and spaces are dropped, and TAB, CR and LF are
    removed throughout, before the URL is cut up. [urlparse] raises
    [ValueError] instead when it rejects the network location: see
    [unmatched_bracket] and [safe_filename_call]. *)
Definition urlparse_path (url : string) : string :=
  let url := PyStr.lstrip_chars (PyStr.in_range 0 32) url in
  let url := PyStr.remove_chars
               (fun a => Ascii.eqb a "009" || Ascii.eqb a "013" || Ascii.eqb a "010") url in
  let '(scheme, url) := split_scheme url in
  let url := drop_netloc url in
  let url := fst (PyStr.cut "#" url) in
  let url := fst (PyStr.cut "?" url) in
  if existsb (String.eqb scheme) uses_params then drop_params url else url.

(** The part of a URL that [_splitnetloc] takes for the network
    location. *)
Fixpoint netloc_prefix (s : string) : string :=
  match s with
  | EmptyString => EmptyString
  | String a s' =>
      if Ascii.eqb a "/" || Ascii.eqb a "?" || Ascii.eqb a "#"
      then EmptyString else String a (netloc_prefix s')
  end.

Definition netloc (url : string) : string :=
  let url := PyStr.lstrip_chars (PyStr.in_range 0 32) url in
  let url := PyStr.remove_chars
               (fun a => Ascii.eqb a "009" || Ascii.eqb a "013" || Ascii.eqb a "010") url in
  match snd (split_scheme url) with
  | String "/" (String "/" rest) => netloc_prefix rest
  | _ => EmptyString
  end.

(** One of [[] and []] is in the network location and the other is not:
    [urlparse] raises [ValueError] for such a URL, in every version of
    the library. *)
Definition unmatched_bracket (url : string) : bool :=
  xorb (PyStr.contains "[" (netloc url)) (PyStr.contains "]" (netloc url)).

(** [PurePosixPath(path).name]: the last component of the path, empty
    and [.] components left out; empty when there is none. *)
Definition posix_name (path : string) : string :=
  List.last
    (List.filter (fun x => PyStr.truthy x && negb (String.eqb x "."))
                 (PyStr.split "/" path))
    EmptyString.

End Url.

(** [x or default] on strings. *)
Definition py_or (x default : string) : string :=
  if PyStr.truthy x then x else default.

(** The name [_safe_filename] returns when both calls of [urlparse]
    return. *)
Definition _safe_filename (img_url page_url suffix : string) : string :=
  let page_slug := py_or (Url.posix_name (Url.urlparse_path page_url)) "page" in
  let page_slug := PyStr.sub_non_word page_slug in
  let img_name := py_or (Url.posix_name (Url.urlparse_path img_url)) "image" in
  page_slug ++ "__" ++ suffix ++ "__" ++ img_name.

(** The call [_safe_filename(img_url, page_url, suffix)]: nothing when
    [urlparse] raises [ValueError], for the page URL or for the image
    URL; [urlparse_rejects] tells for which URLs it does. *)
Definition safe_filename_call (urlparse_rejects : string -> bool)
           (img_url page_url suffix : string) : option string :=
  if urlparse_rejects page_url || urlparse_rejects img_url
  then None
  else Some (_safe_filename img_url page_url suffix).

(* ===================================================================== *)
(** ** The archive *)
(* ===================================================================== *)

Module Zip.

(** One call [writestr(arcname, data)]: the name as it is passed and the
    data. *)
Record ZipEntry := { arcname : string; entry_data : list Byte.byte }.

(** [str.replace] of one character by another. *)
Fixpoint replace_char (old new : ascii) (s : string) : string :=
  match s with
  | EmptyString => EmptyString
  | String a s' =>
      String (if Ascii.eqb a old then new else a) (replace_char old new s')
  end.

(** The name [ZipInfo] stores for a member: the name passed, cut at its
    first NUL, with the path separator of the platform ([os.sep])
    replaced by [/] where the two differ. *)
Definition stored_name (os_sep : ascii) (name : string) : string :=
  let name := fst (PyStr.cut "000" name) in
  if Ascii.eqb os_sep "/" then name else replace_char os_sep "/" name.

(** The end-of-central-directory record of an archive without members:
    the signature [PK\005\006] and eighteen zero bytes (disk numbers,
    member counts, size and offset of the directory, comment length). *)
Definition end_record_empty : list Byte.byte :=
  [Byte.x50; Byte.x4b; Byte.x05; Byte.x06] ++ repeat Byte.x00 18.

(** What closing the [ZipFile] leaves in the buffer. Without members
    that is the end record alone; the layout of members (headers,
    deflated data, checksums, directory) is the library's and is given
    by [members_bytes]. *)
Definition archive_bytes (members_bytes : list ZipEntry -> list Byte.byte)
           (zf : list ZipEntry) : list Byte.byte :=
  match zf with
  | [] => end_record_empty
  | _ => members_bytes zf
  end.

Definition le16 (lo hi : Byte.byte) : N := Byte.to_N lo + 256 * Byte.to_N hi.

(** Reading an archive back, as far as its end record: the number of
    members of an archive whose end record (without comment) closes the
    buffer and which has no member data before it. *)
Definition read_empty_archive (buf : list Byte.byte) : option N :=
  match buf with
  | [s0; s1; s2; s3; d0; d1; c0; c1; n0; n1; t0; t1;
     z0; z1; z2; z3; o0; o1; o2; o3; m0; m1] =>
      if forallb (fun p => Byte.eqb (fst p) (snd p))
           [(s0, Byte.x50); (s1, Byte.x4b); (s2, Byte.x05); (s3, Byte.x06)]
         && (le16 m0 m1 =? 0)%N && (le16 n0 n1 =? le16 t0 t1)%N
      then Some (le16 t0 t1)
      else None
  | _ => None
  end.

End Zip.

Import Zip.

(* ===================================================================== *)
(** ** The world of the program *)
(* ===================================================================== *)

Inductive Status := pending | ok | error.

(** The result dict of [scrape_images]. *)
Record PageResult := {
  url : string;
  hero_image : option string;
  og_image : option string;
  status : Status
}.

Definition set_hero_image (v : option string) (r : PageResult) : PageResult :=
  {| url := url r; hero_image := v; og_image := og_image r; status := status r |}.

Definition set_og_image (v : option string) (r : PageResult) : PageResult :=
  {| url := url r; hero_image := hero_image r; og_image := v; status := status r |}.

Definition set_status (v : Status) (r : PageResult) : PageResult :=
  {| url := url r; hero_image := hero_image r; og_image := og_image r; status := v |}.

(** What the operator and the network see of a run. *)
Inductive Event :=
| Get (target : string)            (* requests.get *)
| Warning (target : string)        (* st.warning *)
| Progress (num den : nat)         (* progress bar at num/den *)
| Sleep (ms : N)                   (* time.sleep *)
| Info (total : nat)               (* st.info *)
| ErrorMessage.                    (* st.error *)

(** The dicts live in a store and are handled through references, as
    Python objects are; the trace collects the visible effects in order. *)
Record World := { store : list PageResult; trace : list Event }.

(** A reference is the position of its dict in the store. *)
Abbreviation ref := nat.

(** Computations over the world. [None] is a computation that does not
    return: an exception leaves it, be it the uncaught error of a library
    call or the use of a reference to no object (which a Python program
    cannot hold). *)
Definition M (A : Type) : Type := World -> option (A * World).

#[global] Instance M_ret : MRet M := fun A x w => Some (x, w).

#[global] Instance M_bind : MBind M := fun A B f m w =>
  match m w with
  | Some (a, w') => f a w'
  | None => None
  end.

(** An exception that nothing catches. *)
Definition uncaught {A : Type} : M A := fun _ => None.

Definition emit (e : Event) : M unit :=
  fun w => Some (tt, {| store := store w; trace := trace w ++ [e] |}).

(** A new dict. *)
Definition alloc (d : PageResult) : M ref :=
  fun w => Some (length (store w), {| store := store w ++ [d]; trace := trace w |}).

(** Reading a dict through its reference. *)
Definition load (l : ref) : M PageResult :=
  fun w => match store w !! l with
           | Some d => Some (d, w)
           | None => None
           end.

(** [d[key] = value] through the reference. *)
Definition modify (l : ref) (f : PageResult -> PageResult) : M unit :=
  fun w => match store w !! l with
           | Some d => Some (tt, {| store := <[l := f d]> (store w); trace := trace w |})
           | None => None
           end.

Definition sleep (ms : N) : M unit := emit (Sleep ms).

(* ===================================================================== *)
(** ** The functions of app.py *)
(* ===================================================================== *)

(** The answer of a server. *)
Record Response := { status_code : Z; text : string; content : list Byte.byte }.

(** [requests.get] ends with a response, with a [RequestException], or
    with an exception of another class: the library lets some errors of
    the layers below pass, such as [LocationParseError] for a host with
    an empty or over-long label. *)
Inductive Outcome := Responded (r : Response) | RequestFailed | RaisedOther.

(** [resp.raise_for_status()] raises for the codes 400 to 599. *)
Definition raises_for_status (r : Response) : bool :=
  ((400 <=? status_code r) && (status_code r <? 600))%Z.

(** An image to download: [(img_url, page_url, kind)]. *)
Definition ImageTask : Type := string * string * string.

(** [r.get(field)] used as a condition and then as a value: the string
    when it is there and not empty. *)
Definition discovered (v : option string) : option string :=
  match v with
  | Some s => if PyStr.truthy s then Some s else None
  | None => None
  end.

(** The tasks one result contributes: hero first, then og. *)
Definition tasks_of (r : PageResult) : list ImageTask :=
  match discovered (hero_image r) with
  | Some h => [(h, url r, "hero")]
  | None => []
  end ++
  match discovered (og_image r) with
  | Some o => [(o, url r, "og")]
  | None => []
  end.

(** The validation loop of [main]. *)
Definition normalize (u : string) : string :=
  if PyStr.startswith u "http" then u else "https://" ++ u.

Section App.

(** The network, the HTML parser, the URLs [urlparse] rejects and the
    member layout of the archive library. The same URL gets the same
    answer throughout a run. *)
Variable http_get : string -> Outcome.
Variable parse : string -> PageElement.
Variable urlparse_rejects : string -> bool.
Variable members_bytes : list ZipEntry -> list Byte.byte.

(** Only a [RequestException] is caught and turned into a warning and
    [None]; an exception of another class leaves [fetch_page]. *)
Definition fetch_page (target : string) : M (option Response) :=
  emit (Get target);;
  match http_get target with
  | Responded resp =>
      if raises_for_status resp
      then emit (Warning target);; mret None
      else mret (Some resp)
  | RequestFailed => emit (Warning target);; mret None
  | RaisedOther => uncaught
  end.

Definition scrape_images (target : string) : M ref :=
  result ← alloc {| url := target; hero_image := None; og_image := None;
                    status := pending |};
  resp ← fetch_page target;
  match resp with
  | None =>
      modify result (set_status error);;
      mret result
  | Some resp =>
      let soup := parse (text resp) in
      modify result (set_hero_image (extract_hero_image soup));;
      modify result (set_og_image (extract_og_image soup));;
      modify result (set_status ok);;
      mret result
  end.

(** The scraping loop of [main], from index [idx] on. *)
Fixpoint scrape_loop (rate_limit : N) (total idx : nat) (urls : list string)
         (results : list ref) : M (list ref) :=
  match urls with
  | [] => mret results
  | target :: rest =>
      emit (Progress idx total);;
      result ← scrape_images target;
      let results := results ++ [result] in
      (if (idx <? total - 1)%nat then sleep rate_limit else mret tt);;
      scrape_loop rate_limit total (S idx) rest results
  end.

(** [main] from the pressed button to the filled result list: nothing
    for an empty input, which is rejected with a message. *)
Definition main_scrape (raw_urls : list string) (rate_limit : N)
  : M (option (list ref)) :=
  match raw_urls with
  | [] => emit ErrorMessage;; mret None
  | _ =>
      let valid_urls := map normalize raw_urls in
      let total := length valid_urls in
      emit (Info total);;
      emit (Progress 0 1);;
      results ← scrape_loop rate_limit total 0 valid_urls [];
      emit (Progress 1 1);;
      mret (Some results)
  end.

(** The first loop of [build_zip]. *)
Fixpoint collect_tasks (results : list ref) (image_urls : list ImageTask)
  : M (list ImageTask) :=
  match results with
  | [] => mret image_urls
  | r :: rest =>
      d ← load r;
      collect_tasks rest (image_urls ++ tasks_of d)
  end.

(** The download loop of [build_zip], from index [idx] on; [zf] holds
    the members written so far. Only a [RequestException] is caught:
    another exception of [requests.get], or the [ValueError] of
    [urlparse], leaves the loop and [build_zip]. *)
Fixpoint download_loop (total idx : nat) (tasks : list ImageTask)
         (zf : list ZipEntry) : M (list ZipEntry) :=
  match tasks with
  | [] => mret zf
  | (img_url, page_url, kind) :: rest =>
      emit (Progress (idx + 1)%nat total);;
      emit (Get img_url);;
      zf ← match http_get img_url with
           | Responded img_resp =>
               if raises_for_status img_resp then mret zf
               else
                 match safe_filename_call urlparse_rejects img_url page_url kind with
                 | Some fname =>
                     mret (zf ++ [{| arcname := fname;
                                     entry_data := content img_resp |}])
                 | None => uncaught
                 end
           | RequestFailed => mret zf
           | RaisedOther => uncaught
           end;
      sleep 500;;
      download_loop total (S idx) rest zf
  end.

Definition build_zip (results : list ref) : M (option (list Byte.byte)) :=
  image_urls ← collect_tasks results [];
  match image_urls with
  | [] => mret None
  | _ =>
      zf ← download_loop (length image_urls) 0 image_urls [];
      mret (Some (archive_bytes members_bytes zf))
  end.

End App.

(* ===================================================================== *)
(** ** Notions used to state the properties *)
(* ===================================================================== *)

Section Outcomes.

Variable http_get : string -> Outcome.
Variable parse : string -> PageElement.
Variable urlparse_rejects : string -> bool.

(** The request for [target] succeeds: a response whose status does not
    raise. *)
Definition fetched (target : string) : option Response :=
  match http_get target with
  | Responded resp => if raises_for_status resp then None else Some resp
  | RequestFailed => None
  | RaisedOther => None
  end.

(** The request for [target] raises nothing but a [RequestException], if
    it raises at all. *)
Definition quiet (target : string) : bool :=
  match http_get target with
  | RaisedOther => false
  | _ => true
  end.

(** The events of one [fetch_page]. *)
Definition fetch_events (target : string) : list Event :=
  Get target :: match fetched target with
                | None => [Warning target]
                | Some _ => []
                end.

(** The dict [scrape_images] leaves behind for [target]. *)
Definition scraped (target : string) : PageResult :=
  match fetched target with
  | None =>
      {| url := target; hero_image := None; og_image := None; status := error |}
  | Some resp =>
      {| url := target;
         hero_image := extract_hero_image (parse (text resp));
         og_image := extract_og_image (parse (text resp));
         status := ok |}
  end.

(** The events of the scraping loop, from index [idx] on. *)
Fixpoint loop_events (rate_limit : N) (total idx : nat) (urls : list string)
  : list Event :=
  match urls with
  | [] => []
  | target :: rest =>
      Progress idx total :: fetch_events target
      ++ (if (idx <? total - 1)%nat then [Sleep rate_limit] else [])
      ++ loop_events rate_limit total (S idx) rest
  end.

(** The member a task adds to the archive when its download succeeds. *)
Definition member_of (t : ImageTask) : list ZipEntry :=
  let '(img_url, page_url, kind) := t in
  match fetched img_url with
  | Some img_resp =>
      [{| arcname := _safe_filename img_url page_url kind;
          entry_data := content img_resp |}]
  | None => []
  end.

(** The task goes through the download loop without an uncaught
    exception: its request is quiet and, if the image downloads,
    [urlparse] accepts both of its URLs. *)
Definition task_passes (t : ImageTask) : bool :=
  let '(img_url, page_url, kind) := t in
  quiet img_url
  && match fetched img_url with
     | Some _ => negb (urlparse_rejects page_url || urlparse_rejects img_url)
     | None => true
     end.

(** The events of the download loop, from index [idx] on. *)
Fixpoint download_events (total idx : nat) (tasks : list ImageTask) : list Event :=
  match tasks with
  | [] => []
  | (img_url, _, _) :: rest =>
      Progress (idx + 1)%nat total :: Get img_url :: Sleep 500
      :: download_events total (S idx) rest
  end.

End Outcomes.

(** The references [rs] point, in the store of [w], to the dicts [ds]. *)
Definition points_to (w : World) (rs : list ref) (ds : list PageResult) : Prop :=
  Forall2 (fun l d => store w !! l = Some d) rs ds.

(** The task list as the specification words it: a task for every image
    field that is present. *)
Definition claimed_tasks_of (r : PageResult) : list ImageTask :=
  match hero_image r with
  | Some h => [(h, url r, "hero")]
  | None => []
  end ++
  match og_image r with
  | Some o => [(o, url r, "og")]
  | None => []
  end.

(* ===================================================================== *)
(** ** The extractors and the file name, in the words of the specification *)
(* ===================================================================== *)

(** The class list of the element has the token [tok]. *)
Definition has_token (tok : string) (e : PageElement) : bool :=
  match get_class e with
  | Some toks => existsb (String.eqb tok) toks
  | None => false
  end.

(** A div whose class list has all five marker tokens. *)
Definition is_container (e : PageElement) : bool :=
  is_named "div" e && forallb (fun rc => has_token rc e) required_classes.

(** An img whose class list has the token [no_lazy]. *)
Definition is_no_lazy_img (e : PageElement) : bool :=
  is_named "img" e && has_token "no_lazy" e.

(** A div whose class list has the token [s_col]. *)
Definition is_s_col_div (e : PageElement) : bool :=
  is_named "div" e && has_token "s_col" e.

Definition has_src (e : PageElement) : bool :=
  match get_attr e "src" with
  | Some s => PyStr.truthy s
  | None => false
  end.

Definition trimmed_src (e : PageElement) : option string :=
  PyStr.strip <$> get_attr e "src".

(** Hero extraction as the claim words it: in the first container, the
    first img that has the token [no_lazy] and a non-empty [src]; failing
    that, the first such img found across the [s_col] divs in document
    order. *)
Definition claimed_hero_image (soup : PageElement) : option string :=
  let usable e := is_no_lazy_img e && has_src e in
  let primary :=
    match List.find is_container (descendants soup) with
    | Some c => List.find usable (descendants c)
    | None => None
    end in
  let img :=
    match primary with
    | Some i => Some i
    | None =>
        List.find usable
                  (flat_map descendants (List.filter is_s_col_div (descendants soup)))
    end in
  match img with
  | Some i => trimmed_src i
  | None => None
  end.

(** The trimmed [src] of the first [no_lazy] img below [c], when that img
    has a non-empty [src]. *)
Definition first_no_lazy_src (c : PageElement) : option string :=
  match List.find is_no_lazy_img (descendants c) with
  | Some i => if has_src i then trimmed_src i else None
  | None => None
  end.

Fixpoint first_some {A B} (f : A -> option B) (l : list A) : option B :=
  match l with
  | [] => None
  | x :: l' => match f x with Some y => Some y | None => first_some f l' end
  end.

(** The two tiers on class tokens: the first container's first [no_lazy]
    img, if its [src] is not empty; failing that, going through the
    [s_col] divs in document order, the first [no_lazy] img of the first
    div whose first [no_lazy] img has a non-empty [src]. *)
Definition two_tier_hero_image (soup : PageElement) : option string :=
  let primary :=
    match List.find is_container (descendants soup) with
    | Some c => first_no_lazy_src c
    | None => None
    end in
  match primary with
  | Some src => Some src
  | None =>
      first_some first_no_lazy_src (List.filter is_s_col_div (descendants soup))
  end.

(** The class strings the filters look for. *)
Definition markers : list string := "no_lazy" :: required_classes.

(** No class token of the element holds a marker without being it. *)
Definition exact_tokens (e : PageElement) : bool :=
  match get_class e with
  | None => true
  | Some toks =>
      forallb (fun tok =>
                 forallb (fun m => implb (PyStr.contains m tok) (String.eqb tok m))
                         markers)
              toks
  end.

Definition exact_document (soup : PageElement) : bool :=
  forallb exact_tokens (descendants soup).

(** A meta element whose [property] is [og:image]. *)
Definition is_og_meta (e : PageElement) : bool :=
  is_named "meta" e && attr_equals "property" "og:image" e.

(** Og extraction as the claim words it: the content of the first such
    meta, trimmed, when it is not empty after trimming. *)
Definition claimed_og_image (soup : PageElement) : option string :=
  match List.find is_og_meta (descendants soup) with
  | Some t =>
      match get_attr t "content" with
      | Some c =>
          if PyStr.truthy (PyStr.strip c) then Some (PyStr.strip c) else None
      | None => None
      end
  | None => None
  end.

(** The characters of [A-Za-z0-9_-]. *)
Definition claimed_keep (a : ascii) : bool :=
  PyStr.is_ascii_alpha a || PyStr.is_ascii_digit a
  || Ascii.eqb a "_" || Ascii.eqb a "-".

Fixpoint claimed_slug (s : string) : string :=
  match s with
  | EmptyString => EmptyString
  | String a s' => String (if claimed_keep a then a else "_"%char) (claimed_slug s')
  end.

(** The last path segment of a URL, as [_safe_filename] takes it. *)
Definition last_segment (target : string) : string :=
  Url.posix_name (Url.urlparse_path target).

(** The entry name as the claim words it. *)
Definition claimed_safe_filename (img_url page_url kind : string) : string :=
  claimed_slug (py_or (last_segment page_url) "page")
  ++ "__" ++ kind ++ "__" ++ py_or (last_segment img_url) "image".

(* ===================================================================== *)
(** ** Sample pages, network and store *)
(* ===================================================================== *)

(** A container whose first [no_lazy] img has no [src] and whose second
    has one. *)
Definition page_two_imgs : PageElement :=
  document
    [elem "div" [("class", "s_col col-md-6 d-md-flex flex-column align-items-md-end")]
       [elem "img" [("class", "no_lazy")] [];
        elem "img" [("class", "no_lazy"); ("src", "https://x/second.jpg")] []]].

(** A div whose tokens hold the markers without being them. *)
Definition page_longer_tokens : PageElement :=
  document
    [elem "div" [("class", "xs_column col-md-6 d-md-flex flex-column align-items-md-end")]
       [elem "img" [("class", "no_lazy_off"); ("src", "https://x/other.jpg")] []]].

(** An og meta whose content is one space. *)
Definition page_blank_og : PageElement :=
  document
    [elem "head" []
       [elem "meta" [("property", "og:image"); ("content", " ")] []]].

Definition hotwire : string := "https://brightdata.com/products/web-scraper/hotwire".

Definition jpeg : list Byte.byte := [Byte.xff; Byte.xd8; Byte.xff; Byte.xd9].

(** A network with one product page, one image that downloads, one server
    error, and nothing else. *)
Definition sample_net (target : string) : Outcome :=
  if String.eqb target hotwire
  then Responded {| status_code := 200; text := "hotwire"; content := [] |}
  else if String.eqb target "https://x/hero.jpg"
  then Responded {| status_code := 200; text := ""; content := jpeg |}
  else if String.eqb target "https://x/img.png"
  then Responded {| status_code := 503; text := ""; content := [] |}
  else RequestFailed.

(** The same answers for the product page, and no image server. *)
Definition sample_net_pages (target : string) : Outcome :=
  if String.eqb target hotwire
  then Responded {| status_code := 200; text := "hotwire"; content := [] |}
  else RequestFailed.

(** The same network behind a library that raises [LocationParseError]
    for the two hosts with an empty label. *)
Definition faulty_net (target : string) : Outcome :=
  if String.eqb target "https://brightdata..com/x" then RaisedOther
  else if String.eqb target "https://cdn..example.com/img/a.png" then RaisedOther
  else sample_net target.

Definition sample_parse (body : string) : PageElement :=
  if String.eqb body "hotwire" then page_primary else document [].

(** A stand-in for the member layout. *)
Definition sample_members (zf : list ZipEntry) : list Byte.byte :=
  flat_map entry_data zf.

Definition empty_world : World := {| store := []; trace := [] |}.

(** The store after scraping the product page. *)
Definition sample_world : World :=
  {| store := [{| url := hotwire; hero_image := Some "https://x/hero.jpg";
                  og_image := Some "https://x/img.png"; status := ok |}];
     trace := [] |}.

(** The product page with an og image on a host with an empty label. *)
Definition bad_og_world : World :=
  {| store := [{| url := hotwire; hero_image := Some "https://x/hero.jpg";
                  og_image := Some "https://cdn..example.com/img/a.png";
                  status := ok |}];
     trace := [] |}.

(** The same without a hero image. *)
Definition only_bad_og_world : World :=
  {| store := [{| url := hotwire; hero_image := None;
                  og_image := Some "https://cdn..example.com/img/a.png";
                  status := ok |}];
     trace := [] |}.

(** A page whose hero image has an unmatched bracket before the host. *)
Definition bracket_world : World :=
  {| store := [{| url := hotwire; hero_image := Some "http://user[@x/hero.jpg";
                  og_image := None; status := ok |}];
     trace := [] |}.

(** A network on which that image downloads. *)
Definition bracket_net (target : string) : Outcome :=
  if String.eqb target "http://user[@x/hero.jpg"
  then Responded {| status_code := 200; text := ""; content := jpeg |}
  else sample_net target.

(** A store whose only dict has the empty string as og image. *)
Definition blank_og_world : World :=
  {| store := [{| url := hotwire; hero_image := None; og_image := Some "";
                  status := ok |}];
     trace := [] |}.

(** A page URL whose last segment ends in the letter e with acute accent
    (code point 233). *)
Definition cafe_url : string :=
  "https://brightdata.com/products/caf" ++ String "233" EmptyString.

(** Unfolding the computations over the world. *)
Ltac run := unfold mbind, M_bind, mret, M_ret, emit, sleep, alloc; simpl.

(* ===================================================================== *)
(** ** The rest of [main]: input text, summary, CSV and the ZIP step *)
(* ===================================================================== *)

(** The line boundaries of [str.splitlines] below 256: LF, VT, FF, CR,
    the separators 28..30 and NEL (133). *)
Definition is_linebreak (a : ascii) : bool :=
  PyStr.in_range 10 13 a || PyStr.in_range 28 30 a || (N_of_ascii a =? 133)%N.

(** [s.splitlines()]: the lines without their boundaries; CR LF is one
    boundary, and a boundary at the very end opens no further line. *)
Fixpoint splitlines_from (cur : string) (s : string) : list string :=
  match s with
  | EmptyString => if PyStr.truthy cur then [cur] else []
  | String a s' =>
      if is_linebreak a
      then cur :: match s' with
                  | String b s'' =>
                      if Ascii.eqb a "013" && Ascii.eqb b "010"
                      then splitlines_from EmptyString s''
                      else splitlines_from EmptyString s'
                  | EmptyString => []
                  end
      else splitlines_from (cur ++ String a EmptyString) s'
  end.

Definition splitlines (s : string) : list string := splitlines_from EmptyString s.

(** [[u.strip() for u in url_text.splitlines() if u.strip()]] *)
Definition raw_urls_of (url_text : string) : list string :=
  flat_map (fun u => if PyStr.truthy (PyStr.strip u) then [PyStr.strip u] else [])
           (splitlines url_text).

(** [r["status"] == "ok"] *)
Definition is_ok (r : PageResult) : bool :=
  match status r with ok => true | _ => false end.

(** An image field used as a condition. *)
Definition image_found (v : option string) : bool :=
  match v with
  | Some s => PyStr.truthy s
  | None => false
  end.

(** [sum(1 for r in results if ...)], the three summary counts. *)
Definition ok_count (ds : list PageResult) : nat :=
  length (List.filter is_ok ds).

Definition hero_count (ds : list PageResult) : nat :=
  length (List.filter (fun r => image_found (hero_image r)) ds).

Definition og_count (ds : list PageResult) : nat :=
  length (List.filter (fun r => image_found (og_image r)) ds).

(** The double quote and the line feed. *)
Definition dquote : string := String "034" EmptyString.
Definition newline : string := String "010" EmptyString.

(** [v or ""] on an image field. *)
Definition or_empty (v : option string) : string :=
  match v with
  | Some s => s
  | None => EmptyString
  end.

(** The text of a status. *)
Definition status_str (s : Status) : string :=
  match s with
  | pending => "pending"
  | ok => "ok"
  | error => "error"
  end.

(** One line of the CSV export: the four fields, each between double
    quotes, separated by commas. *)
Definition csv_row (r : PageResult) : string :=
  dquote ++ url r ++ dquote ++ "," ++ dquote ++ or_empty (hero_image r) ++ dquote
  ++ "," ++ dquote ++ or_empty (og_image r) ++ dquote
  ++ "," ++ dquote ++ status_str (status r) ++ dquote.

Definition csv_header : string := "Page URL,Hero Image,OG Image,Status".

Definition csv_lines (ds : list PageResult) : list string :=
  csv_header :: map csv_row ds.

(** The exported text, before it is encoded. *)
Definition csv_text (ds : list PageResult) : string :=
  PyStr.join newline (csv_lines ds).

(** No double quote in the string. *)
Definition quote_free (s : string) : bool :=
  PyStr.all_chars (fun a => negb (Ascii.eqb a "034")) s.



(** No [/] in the string. *)
Definition no_slash (s : string) : bool :=
  PyStr.all_chars (fun a => negb (Ascii.eqb a "/")) s.

(** The requests and pauses among the events, in order. *)
Definition is_get_or_sleep (e : Event) : bool :=
  match e with
  | Get _ => true
  | Sleep _ => true
  | _ => false
  end.

(** Requests with a pause between consecutive ones. *)
Fixpoint paced (ms : N) (urls : list string) : list Event :=
  match urls with
  | [] => []
  | [u] => [Get u]
  | u :: rest => Get u :: Sleep ms :: paced ms rest
  end.

(** The dicts behind the references, as the summary and the exports read
    them. *)
Fixpoint load_all (rs : list ref) : M (list PageResult) :=
  match rs with
  | [] => mret []
  | r :: rest =>
      d ← load r;
      ds ← load_all rest;
      mret (d :: ds)
  end.

Section Main.

Variable http_get : string -> Outcome.
Variable parse : string -> PageElement.
Variable urlparse_rejects : string -> bool.
Variable members_bytes : list ZipEntry -> list Byte.byte.

(** The ZIP step of [main]: the data of the download button, when the
    button is shown. *)
Definition main_zip (download_images : bool) (results : list ref)
  : M (option (list Byte.byte)) :=
  ds ← load_all results;
  if download_images
     && (negb (hero_count ds =? 0)%nat || negb (og_count ds =? 0)%nat)
  then
    emit (Progress 0 1);;
    zip_bytes ← build_zip http_get urlparse_rejects members_bytes results;
    emit (Progress 1 1);;
    mret (match zip_bytes with
          | Some (b :: bs) => Some (b :: bs)
          | _ => None
          end)
  else mret None.

(** [main] once the button is pressed: the lines of the CSV export and
    the data of the ZIP button, or nothing when the input is rejected.
    The table, the summary line and the text block are display only. *)
Definition main_run (url_text : string) (rate_limit : N) (download_images : bool)
  : M (option (list string * option (list Byte.byte))) :=
  scraped_refs ← main_scrape http_get parse (raw_urls_of url_text) rate_limit;
  match scraped_refs with
  | None => mret None
  | Some results =>
      ds ← load_all results;
      zip ← main_zip download_images results;
      mret (Some (csv_lines ds, zip))
  end.

End Main.

(** Two results with the same row, thanks to double quotes in the fields. *)
Definition quoted_a : PageResult :=
  {| url := ("a" ++ dquote ++ "," ++ dquote ++ "b")%string; hero_image := Some "c";
     og_image := Some "d"; status := ok |}.

Definition quoted_b : PageResult :=
  {| url := "a"; hero_image := Some ("b" ++ dquote ++ "," ++ dquote ++ "c")%string;
     og_image := Some "d"; status := ok |}.
Example strip_ex : PyStr.strip " https://x/img.png " = "https://x/img.png".
Proof. reflexivity. Qed.

Example split_ws_ex : PyStr.split_ws "  s_col   col-md-6 " = ["s_col"; "col-md-6"].
Proof. reflexivity. Qed.

Example contains_ex : PyStr.contains "s_col" "s_column" = true.
Proof. reflexivity. Qed.

Example og_trimmed : extract_og_image page_primary = Some "https://x/img.png".
Proof. vm_compute. reflexivity. Qed.

Example hero_primary : extract_hero_image page_primary = Some "https://x/hero.jpg".
Proof. vm_compute. reflexivity. Qed.

Example hero_fallback_ex : extract_hero_image page_fallback = Some "https://x/h2.jpg".
Proof. vm_compute. reflexivity. Qed.

Example hero_none : extract_hero_image (document [elem "p" [] []]) = None.
Proof. vm_compute. reflexivity. Qed.

Example path_ex :
  Url.urlparse_path "https://brightdata.com/products/web-scraper/hotwire?x=1#top"
  = "/products/web-scraper/hotwire".
Proof. vm_compute. reflexivity. Qed.

Example path_params_ex : Url.urlparse_path "http://h/a;b/c;d" = "/a;b/c".
Proof. vm_compute. reflexivity. Qed.

Example name_ex : Url.posix_name "/products/web-scraper/hotwire/" = "hotwire".
Proof. vm_compute. reflexivity. Qed.

Example name_root_ex : Url.posix_name "/" = "".
Proof. vm_compute. reflexivity. Qed.

Example safe_filename_ex :
  _safe_filename "https://cdn.x/img/hero.v2.jpg"
                 "https://brightdata.com/products/web-scraper/hot.wire" "hero"
  = "hot_wire__hero__hero.v2.jpg".
Proof. vm_compute. reflexivity. Qed.

Example safe_filename_defaults :
  _safe_filename "https://cdn.x/" "https://brightdata.com" "og" = "page__og__image".
Proof. vm_compute. reflexivity. Qed.

Example cafe_last_char :
  Url.posix_name (Url.urlparse_path cafe_url) = ("caf" ++ String (ascii_of_N 233) "")%string.
Proof. vm_compute. reflexivity. Qed.

Example accented_letter_is_word : PyStr.is_word (ascii_of_N 233) = true.
Proof. reflexivity. Qed.

Example multiplication_sign_is_not_word : PyStr.is_word (ascii_of_N 215) = false.
Proof. reflexivity. Qed.

Example empty_archive_reads_back : read_empty_archive end_record_empty = Some 0%N.
Proof. reflexivity. Qed.

(** The substring tests of the class filters accept tokens that merely
    hold a marker: no token here is [s_col] or [no_lazy], and the image is
    returned all the same. *)
Example longer_tokens_match :
  extract_hero_image page_longer_tokens = Some "https://x/other.jpg"
  /\ two_tier_hero_image page_longer_tokens = None.
Proof. vm_compute. split; reflexivity. Qed.

(* ===================================================================== *)
(** ** Running the scraper *)
(* ===================================================================== *)

Section ScrapeFacts.

Variable http_get : string -> Outcome.
Variable parse : string -> PageElement.

(** [fetch_page] returns unless the request raises an exception that is
    no [RequestException]. *)
Lemma fetch_page_run (target : string) (w : World) :
  fetch_page http_get target w
  = if quiet http_get target
    then Some (fetched http_get target,
               {| store := store w;
                  trace := trace w ++ fetch_events http_get target |})
    else None.
Proof.
  unfold fetch_page, fetch_events, fetched, quiet. run.
  destruct (http_get target) as [resp| |]; [destruct (raises_for_status resp)| |];
    simpl; rewrite <- ?app_assoc; reflexivity.
Qed.

Lemma modify_last (l : list PageResult) (d : PageResult) (tr : list Event)
      (f : PageResult -> PageResult) :
  modify (length l) f {| store := l ++ [d]; trace := tr |}
  = Some (tt, {| store := l ++ [f d]; trace := tr |}).
Proof.
  unfold modify. simpl.
  rewrite lookup_app_r by lia. rewrite Nat.sub_diag. simpl.
  rewrite insert_app_r_alt by lia. rewrite Nat.sub_diag. reflexivity.
Qed.

Lemma scrape_images_run (target : string) (w : World) :
  scrape_images http_get parse target w
  = if quiet http_get target
    then Some (length (store w),
               {| store := store w ++ [scraped http_get parse target];
                  trace := trace w ++ fetch_events http_get target |})
    else None.
Proof.
  unfold scrape_images, scraped.
  unfold mbind at 1, M_bind at 1, alloc. simpl.
  unfold mbind at 1, M_bind at 1. rewrite fetch_page_run. simpl.
  destruct (quiet http_get target); [|reflexivity].
  destruct (fetched http_get target) as [resp|].
  - unfold mbind, M_bind. rewrite modify_last. rewrite modify_last.
    rewrite modify_last. reflexivity.
  - unfold mbind, M_bind. rewrite modify_last. reflexivity.
Qed.

(** The loop returns exactly when every request is quiet; one that is
    not makes it raise, whatever was scraped before. *)
Lemma scrape_loop_run (rate_limit : N) (total : nat) (urls : list string) :
  forall (idx : nat) (results : list ref) (w : World),
    scrape_loop http_get parse rate_limit total idx urls results w
    = if forallb (quiet http_get) urls
      then Some (results ++ seq (length (store w)) (length urls),
                 {| store := store w ++ map (scraped http_get parse) urls;
                    trace := trace w
                             ++ loop_events http_get rate_limit total idx urls |})
      else None.
Proof.
  induction urls as [|target rest IH]; intros idx results w.
  - simpl. unfold mret, M_ret. rewrite !app_nil_r. destruct w; reflexivity.
  - cbn [scrape_loop forallb]. unfold mbind at 1, M_bind at 1, emit.
    unfold mbind at 1, M_bind at 1. rewrite scrape_images_run.
    destruct (quiet http_get target); [|reflexivity]. cbn [andb].
    unfold mbind at 1, M_bind at 1.
    destruct (idx <? total - 1)%nat eqn:Hlt.
    + unfold sleep, emit. rewrite IH. cbn [store trace length map seq loop_events].
      rewrite Hlt. rewrite length_app. cbn [length].
      replace (length (store w) + 1) with (S (length (store w))) by lia.
      rewrite <- !app_assoc. reflexivity.
    + unfold mret, M_ret. rewrite IH. cbn [store trace length map seq loop_events].
      rewrite Hlt. rewrite length_app. cbn [length].
      replace (length (store w) + 1) with (S (length (store w))) by lia.
      rewrite <- !app_assoc. reflexivity.
Qed.

End ScrapeFacts.

(* ===================================================================== *)
(** ** Running the packager *)
(* ===================================================================== *)

Section ZipFacts.

Variable http_get : string -> Outcome.
Variable urlparse_rejects : string -> bool.
Variable members_bytes : list ZipEntry -> list Byte.byte.

Lemma collect_tasks_run (w : World) (rs : list ref) (ds : list PageResult) :
  points_to w rs ds ->
  forall acc : list ImageTask,
    collect_tasks rs acc w = Some (acc ++ flat_map tasks_of ds, w).
Proof.
  unfold points_to. induction 1 as [|l d rs ds Hl _ IH]; intros acc.
  - simpl. unfold mret, M_ret. rewrite app_nil_r. reflexivity.
  - cbn [collect_tasks flat_map]. unfold mbind, M_bind, load. rewrite Hl.
    fold (@mbind M M_bind). rewrite IH. rewrite <- app_assoc. reflexivity.
Qed.

(** The download loop returns exactly when every task passes. *)
Lemma download_loop_run (total : nat) (tasks : list ImageTask) :
  forall (idx : nat) (zf : list ZipEntry) (w : World),
    download_loop http_get urlparse_rejects total idx tasks zf w
    = if forallb (task_passes http_get urlparse_rejects) tasks
      then Some (zf ++ flat_map (member_of http_get) tasks,
                 {| store := store w;
                    trace := trace w ++ download_events total idx tasks |})
      else None.
Proof.
  induction tasks as [|[[img_url page_url] kind] rest IH]; intros idx zf w.
  - simpl. unfold mret, M_ret. rewrite !app_nil_r. destruct w; reflexivity.
  - cbn [download_loop forallb task_passes flat_map download_events member_of].
    unfold mbind at 1, M_bind at 1, emit. unfold mbind at 1, M_bind at 1.
    cbn [store trace]. unfold mbind at 1, M_bind at 1.
    unfold quiet, fetched, safe_filename_call.
    destruct (http_get img_url) as [resp| |]; cbn [andb].
    + destruct (raises_for_status resp); cbn [andb].
      * unfold mret at 1, M_ret at 1. unfold mbind, M_bind, sleep, emit.
        cbn [store trace]. fold (@mbind M M_bind). rewrite IH.
        destruct (forallb _ rest); [|reflexivity].
        cbn [store trace app]. rewrite <- !app_assoc. reflexivity.
      * destruct (urlparse_rejects page_url || urlparse_rejects img_url);
          cbn [negb]; [reflexivity|].
        unfold mret at 1, M_ret at 1. unfold mbind, M_bind, sleep, emit.
        cbn [store trace]. fold (@mbind M M_bind). rewrite IH.
        destruct (forallb _ rest); [|reflexivity].
        cbn [store trace app]. rewrite <- !app_assoc. reflexivity.
    + unfold mret at 1, M_ret at 1. unfold mbind, M_bind, sleep, emit.
      cbn [store trace]. fold (@mbind M M_bind). rewrite IH.
      destruct (forallb _ rest); [|reflexivity].
      cbn [store trace app]. rewrite <- !app_assoc. reflexivity.
    + reflexivity.
Qed.

Lemma build_zip_run (w : World) (rs : list ref) (ds : list PageResult) :
  points_to w rs ds ->
  build_zip http_get urlparse_rejects members_bytes rs w
  = if forallb (task_passes http_get urlparse_rejects) (flat_map tasks_of ds)
    then Some (match flat_map tasks_of ds with
               | [] => None
               | ts => Some (archive_bytes members_bytes
                               (flat_map (member_of http_get) ts))
               end,
               {| store := store w;
                  trace := trace w
                           ++ download_events (length (flat_map tasks_of ds)) 0
                                              (flat_map tasks_of ds) |})
    else None.
Proof.
  intros Hp. unfold build_zip. unfold mbind at 1, M_bind at 1.
  rewrite (collect_tasks_run w rs ds Hp). cbn [app].
  destruct (flat_map tasks_of ds) as [|t ts] eqn:Hts.
  - unfold mret, M_ret. simpl. rewrite app_nil_r. destruct w; reflexivity.
  - unfold mbind, M_bind. rewrite download_loop_run.
    destruct (forallb _ (t :: ts)); reflexivity.
Qed.

End ZipFacts.

(* ===================================================================== *)
(** ** Searching the document *)
(* ===================================================================== *)

Section FirstMatch.

Context {A : Type} (p : A -> bool).

Lemma head_filter_find (l : list A) : head (List.filter p l) = List.find p l.
Proof.
  induction l as [|x l IH]; [reflexivity|].
  simpl. destruct (p x); [reflexivity | exact IH].
Qed.

(** The first match splits the list: nothing before it matches. *)
Lemma find_first (l : list A) (t : A) :
  List.find p l = Some t
  <-> exists pre post : list A,
        l = pre ++ t :: post /\ p t = true /\ Forall (fun e => p e = false) pre.
Proof.
  split.
  - induction l as [|x l IH]; [discriminate|].
    simpl. destruct (p x) eqn:Hx.
    + intros [= ->]. exists [], l. repeat split; [exact Hx | constructor].
    + intros H. destruct (IH H) as (pre & post & -> & Ht & Hpre).
      exists (x :: pre), post. repeat split; [exact Ht|].
      constructor; assumption.
  - intros (pre & post & -> & Ht & Hpre).
    induction Hpre as [|x pre Hx _ IH]; simpl.
    + rewrite Ht. reflexivity.
    + rewrite Hx. exact IH.
Qed.

Lemma find_ext_in (q : A -> bool) (l : list A) :
  (forall x, In x l -> p x = q x) -> List.find p l = List.find q l.
Proof.
  induction l as [|x l IH]; intros H; [reflexivity|].
  simpl. rewrite <- (H x) by (left; reflexivity).
  destruct (p x); [reflexivity|]. apply IH. intros y Hy. apply H. right. exact Hy.
Qed.

End FirstMatch.

Lemma find_is_first (soup : PageElement) (name : string)
      (flt : PageElement -> bool) :
  find soup name flt
  = List.find (fun d => is_named name d && flt d) (descendants soup).
Proof. unfold find, find_all. apply head_filter_find. Qed.

Lemma is_og_meta_tag (e : PageElement) :
  is_og_meta e = true
  <-> exists (attrs : gmap string string) (cs : list PageElement),
        e = Tag "meta" attrs cs /\ attrs !! "property" = Some "og:image".
Proof.
  unfold is_og_meta, is_named, attr_equals, get_attr. split.
  - destruct e as [s|name attrs cs]; [discriminate|].
    intros H. apply andb_prop in H as [Hn Hp].
    apply String.eqb_eq in Hn as ->.
    destruct (attrs !! "property") as [v|] eqn:Hv; [|discriminate].
    apply String.eqb_eq in Hp as ->. exists attrs, cs. split; [reflexivity | exact Hv].
  - intros (attrs & cs & -> & Hv). rewrite Hv. reflexivity.
Qed.

(* ===================================================================== *)
(** ** Substrings of a class list *)
(* ===================================================================== *)

Lemma prefix_refl (s : string) : String.prefix s s = true.
Proof.
  induction s as [|a s IH]; [reflexivity|].
  simpl. destruct (ascii_dec a a); [exact IH | congruence].
Qed.

Lemma contains_unfold (m s : string) :
  PyStr.contains m s
  = String.prefix m s
    || match s with
       | EmptyString => false
       | String _ s' => PyStr.contains m s'
       end.
Proof. destruct s; reflexivity. Qed.

Lemma contains_refl (s : string) : PyStr.contains s s = true.
Proof. rewrite contains_unfold, prefix_refl. reflexivity. Qed.

Lemma contains_empty (m : string) :
  PyStr.truthy m = true -> PyStr.contains m EmptyString = false.
Proof. destruct m; [discriminate | reflexivity]. Qed.

Lemma truthy_and_contains (m s : string) :
  PyStr.truthy m = true ->
  PyStr.truthy s && PyStr.contains m s = PyStr.contains m s.
Proof.
  intros Hm. destruct s; [|reflexivity]. rewrite (contains_empty m Hm). reflexivity.
Qed.

(** A string without the separator starts [s ++ sep ++ b] only if it
    starts [s]. *)
Lemma prefix_app_sep (sep : ascii) (b : string) (s : string) :
  forall m : string,
    PyStr.all_chars (fun a => negb (Ascii.eqb a sep)) m = true ->
    String.prefix m (s ++ String sep b) = String.prefix m s.
Proof.
  induction s as [|x s IH]; intros [|c m] Hm; try reflexivity.
  - simpl in Hm |- *. apply andb_prop in Hm as [Hc _].
    destruct (ascii_dec c sep) as [->|]; [|reflexivity].
    rewrite Ascii.eqb_refl in Hc. discriminate.
  - simpl in Hm |- *. apply andb_prop in Hm as [_ Hm].
    destruct (ascii_dec c x); [apply IH; exact Hm | reflexivity].
Qed.

Lemma contains_app_sep (sep : ascii) (m b : string) :
  PyStr.truthy m = true ->
  PyStr.all_chars (fun a => negb (Ascii.eqb a sep)) m = true ->
  forall a : string,
    PyStr.contains m (a ++ String sep b) = PyStr.contains m a || PyStr.contains m b.
Proof.
  intros Hm Hfree. induction a as [|x a IH].
  - change (EmptyString ++ String sep b)%string with (String sep b).
    rewrite (contains_empty m Hm).
    change (PyStr.contains m (String sep b))
      with (String.prefix m (String sep b) || PyStr.contains m b).
    pose proof (prefix_app_sep sep b EmptyString m Hfree) as Hp.
    change (EmptyString ++ String sep b)%string with (String sep b) in Hp.
    rewrite Hp. destruct m; [discriminate | reflexivity].
  - change (PyStr.contains m (String x a ++ String sep b))
      with (String.prefix m (String x a ++ String sep b)
            || PyStr.contains m (a ++ String sep b)).
    change (PyStr.contains m (String x a))
      with (String.prefix m (String x a) || PyStr.contains m a).
    rewrite (prefix_app_sep sep b (String x a) m Hfree), IH.
    rewrite orb_assoc. reflexivity.
Qed.

(** A string without spaces is in the joined class list exactly when it
    is in one of the tokens. *)
Lemma contains_join (m : string) (toks : list string) :
  PyStr.truthy m = true ->
  PyStr.all_chars (fun a => negb (Ascii.eqb a " ")) m = true ->
  PyStr.contains m (PyStr.join " " toks) = existsb (PyStr.contains m) toks.
Proof.
  intros Hm Hfree. unfold PyStr.join.
  induction toks as [|x [|y r] IH].
  - apply (contains_empty m Hm).
  - simpl. rewrite orb_false_r. reflexivity.
  - change (String.concat " " (x :: y :: r))
      with (x ++ String " " (String.concat " " (y :: r)))%string.
    rewrite (contains_app_sep " " m _ Hm Hfree), IH. reflexivity.
Qed.

(* ===================================================================== *)
(** ** The class filters on exact tokens *)
(* ===================================================================== *)

Lemma markers_plain (m : string) :
  In m markers ->
  PyStr.truthy m = true
  /\ PyStr.all_chars (fun a => negb (Ascii.eqb a " ")) m = true.
Proof.
  intros H. repeat (destruct H as [<-|H]; [split; reflexivity|]). destruct H.
Qed.

Lemma existsb_ext_in {A} (f g : A -> bool) (l : list A) :
  (forall x, In x l -> f x = g x) -> existsb f l = existsb g l.
Proof.
  induction l as [|x l IH]; intros H; [reflexivity|].
  simpl. rewrite (H x) by (left; reflexivity).
  rewrite IH; [reflexivity|]. intros y Hy. apply H. right. exact Hy.
Qed.

Lemma forallb_ext_in {A} (f g : A -> bool) (l : list A) :
  (forall x, In x l -> f x = g x) -> forallb f l = forallb g l.
Proof.
  induction l as [|x l IH]; intros H; [reflexivity|].
  simpl. rewrite (H x) by (left; reflexivity).
  rewrite IH; [reflexivity|]. intros y Hy. apply H. right. exact Hy.
Qed.

(** On exact tokens, holding a marker is being it. *)
Lemma exact_token_contains (toks : list string) (tok m : string) :
  forallb (fun tok =>
             forallb (fun m => implb (PyStr.contains m tok) (String.eqb tok m)) markers)
          toks = true ->
  In tok toks -> In m markers ->
  PyStr.contains m tok = String.eqb m tok.
Proof.
  intros Hex Htok Hm. rewrite forallb_forall in Hex. specialize (Hex tok Htok).
  rewrite forallb_forall in Hex. specialize (Hex m Hm).
  destruct (String.eqb m tok) eqn:He.
  - apply String.eqb_eq in He as ->. apply contains_refl.
  - destruct (PyStr.contains m tok); [|reflexivity]. simpl in Hex.
    apply String.eqb_eq in Hex. subst tok. rewrite String.eqb_refl in He. discriminate.
Qed.

(** What the library makes of a one-marker filter: the marker is in some
    token. *)
Lemma class_matches_substring (m : string) (e : PageElement) :
  In m markers ->
  class_matches (fun c => py_and c (PyStr.contains m)) e
  = match get_class e with
    | Some toks => existsb (PyStr.contains m) toks
    | None => false
    end.
Proof.
  intros Hm. destruct (markers_plain m Hm) as [Ht Hfree].
  unfold class_matches. destruct (get_class e) as [toks|]; [|reflexivity].
  unfold py_and. rewrite (truthy_and_contains m _ Ht).
  rewrite (contains_join m toks Ht Hfree).
  rewrite (existsb_ext_in _ (PyStr.contains m)).
  - apply orb_diag.
  - intros t _. apply (truthy_and_contains m t Ht).
Qed.

Lemma class_matches_marker (m : string) (e : PageElement) :
  In m markers -> exact_tokens e = true ->
  class_matches (fun c => py_and c (PyStr.contains m)) e = has_token m e.
Proof.
  intros Hm Hex. rewrite (class_matches_substring m e Hm).
  unfold has_token, exact_tokens in *. destruct (get_class e) as [toks|]; [|reflexivity].
  apply existsb_ext_in. intros t Ht. apply (exact_token_contains toks t m Hex Ht Hm).
Qed.

(** What the library makes of the five-marker filter: each marker is in
    some token of the class list. *)
Lemma class_matches_required_substring (e : PageElement) :
  class_matches has_required_classes e
  = match get_class e with
    | Some toks =>
        forallb (fun rc => existsb (PyStr.contains rc) toks) required_classes
    | None => false
    end.
Proof.
  unfold class_matches. destruct (get_class e) as [toks|]; [|reflexivity].
  assert (Hj : has_required_classes (Some (PyStr.join " " toks))
               = forallb (fun rc => existsb (PyStr.contains rc) toks) required_classes).
  { unfold has_required_classes, py_and. set (j := PyStr.join " " toks).
    transitivity (forallb (fun rc => PyStr.contains rc j) required_classes).
    - destruct j; reflexivity.
    - apply forallb_ext_in. intros rc Hrc.
      destruct (markers_plain rc (or_intror Hrc)) as [Ht Hfree].
      apply (contains_join rc toks Ht Hfree). }
  rewrite Hj.
  destruct (forallb (fun rc => existsb _ toks) required_classes) eqn:Hall;
    [apply orb_true_r|].
  rewrite orb_false_r. apply not_true_is_false. intros H.
  apply existsb_exists in H as (t & Ht & H).
  unfold has_required_classes, py_and in H. apply andb_prop in H as [_ H].
  rewrite forallb_forall in H.
  assert (Htrue : forallb (fun rc => existsb (PyStr.contains rc) toks)
                          required_classes = true).
  { apply forallb_forall. intros rc Hrc. apply existsb_exists.
    exists t. split; [exact Ht | apply H; exact Hrc]. }
  congruence.
Qed.

Lemma class_matches_required (e : PageElement) :
  exact_tokens e = true ->
  class_matches has_required_classes e
  = forallb (fun rc => has_token rc e) required_classes.
Proof.
  intros Hex. rewrite class_matches_required_substring.
  unfold has_token, exact_tokens in *.
  destruct (get_class e) as [toks|]; [|reflexivity].
  apply forallb_ext_in. intros rc Hrc. apply existsb_ext_in. intros t Hin.
  apply (exact_token_contains toks t rc Hex Hin (or_intror Hrc)).
Qed.

(* ===================================================================== *)
(** ** Document order *)
(* ===================================================================== *)

Lemma PageElement_nested_ind (P : PageElement -> Prop) :
  (forall s : string, P (NavigableString s)) ->
  (forall (n : string) (a : gmap string string) (cs : list PageElement),
      Forall P cs -> P (Tag n a cs)) ->
  forall e : PageElement, P e.
Proof.
  intros Hs Ht. fix IH 1. intros [s|n a cs]; [apply Hs|].
  apply Ht. induction cs as [|c cs IHcs]; constructor; [apply IH | exact IHcs].
Qed.

Lemma descendants_tag (n : string) (a : gmap string string) (cs : list PageElement) :
  descendants (Tag n a cs) = flat_map (fun c => c :: descendants c) cs.
Proof.
  cbn [descendants]. induction cs as [|c cs IH]; [reflexivity|].
  cbn [flat_map app]. rewrite IH. reflexivity.
Qed.

(** What is below a descendant is below the element. *)
Lemma descendants_trans (soup : PageElement) :
  forall c e : PageElement,
    In c (descendants soup) -> In e (descendants c) -> In e (descendants soup).
Proof.
  induction soup as [s|n a cs IH] using PageElement_nested_ind; intros c e Hc He.
  - destruct Hc.
  - rewrite descendants_tag in Hc |- *. apply in_flat_map in Hc as (k & Hk & Hc).
    apply in_flat_map. exists k. split; [exact Hk|]. right.
    destruct Hc as [->|Hc]; [exact He|].
    rewrite Forall_forall in IH.
    apply (IH k (proj2 (list_elem_of_In _ _) Hk) c e Hc He).
Qed.

(* ===================================================================== *)
(** ** The scraping loop: results, failures, repeatability *)
(* ===================================================================== *)


Section ScrapeClaims.

Variable parse : string -> PageElement.

(** The [i]-th reference returned by the loop points to the dict scraped
    from the [i]-th URL. *)
Lemma loop_result_at (st : list PageResult) (ds : list PageResult) (i : nat)
      (d : PageResult) :
  ds !! i = Some d ->
  seq (length st) (length ds) !! i = Some (length st + i)
  /\ (st ++ ds) !! (length st + i) = Some d.
Proof.
  intros Hd. pose proof (lookup_lt_Some _ _ _ Hd) as Hlt. split.
  - apply lookup_seq. split; [reflexivity | exact Hlt].
  - rewrite lookup_app_r by lia.
    replace (length st + i - length st) with i by lia. exact Hd.
Qed.

Lemma loop_points_to (st : list PageResult) (tr : list Event) (ds : list PageResult) :
  points_to {| store := st ++ ds; trace := tr |} (seq (length st) (length ds)) ds.
Proof.
  unfold points_to. apply Forall2_same_length_lookup. split.
  - rewrite length_seq. reflexivity.
  - intros i l d Hl Hd. destruct (loop_result_at st ds i d Hd) as [Hl' Hd'].
    cbn [store]. congruence.
Qed.

Lemma scraped_url (http_get : string -> Outcome) (target : string) :
  url (scraped http_get parse target) = target.
Proof. unfold scraped. destruct (fetched http_get target); reflexivity. Qed.

Lemma scraped_status (http_get : string -> Outcome) (target : string) :
  status (scraped http_get parse target)
  = match fetched http_get target with Some _ => ok | None => error end.
Proof. unfold scraped. destruct (fetched http_get target); reflexivity. Qed.

(** A request that raises another exception than [RequestException]
    makes the whole loop raise. *)
Lemma raising_request_aborts_loop (http_get : string -> Outcome)
      (rate_limit : N) (total idx : nat) (urls : list string)
      (results : list ref) (w : World) (u : string) :
  In u urls -> http_get u = RaisedOther ->
  scrape_loop http_get parse rate_limit total idx urls results w = None.
Proof.
  intros Hin Hu. rewrite scrape_loop_run.
  destruct (forallb (quiet http_get) urls) eqn:Hq; [|reflexivity].
  rewrite forallb_forall in Hq. specialize (Hq u Hin).
  unfold quiet in Hq. rewrite Hu in Hq. discriminate.
Qed.



(** An empty input is rejected before the loop: a message and no result
    list. *)
Lemma main_scrape_empty (http_get : string -> Outcome) (rate_limit : N) (w : World) :
  main_scrape http_get parse [] rate_limit w
  = Some (None, {| store := store w; trace := trace w ++ [ErrorMessage] |}).
Proof. reflexivity. Qed.

(** X17. Provided no request raises an exception that is not a
    [RequestException], the scraping loop returns, for every list of
    input URLs, duplicates and the empty list included, one reference per
    input URL, in input order, each to a dict of its own, and the [url]
    field of the [i]-th dict is the [i]-th input URL normalized:
    unchanged when it starts with [http], otherwise with [https://] in
    front. Dicts that were in the store before are still there. *)
Theorem one_result_per_url (http_get : string -> Outcome)
        (raw_urls : list string) (rate_limit : N) (w : World) :
  forallb (quiet http_get) (map normalize raw_urls) = true ->
  exists (results : list ref) (w' : World),
    scrape_loop http_get parse rate_limit (length (map normalize raw_urls)) 0
                (map normalize raw_urls) [] w = Some (results, w')
    /\ length results = length raw_urls
    /\ NoDup results
    /\ (forall (i : nat) (u : string),
          raw_urls !! i = Some u ->
          exists (l : ref) (d : PageResult),
            results !! i = Some l /\ store w' !! l = Some d /\ store w !! l = None
            /\ url d = if PyStr.startswith u "http" then u else ("https://" ++ u)%string)
    /\ (forall (l : ref) (d : PageResult),
          store w !! l = Some d -> store w' !! l = Some d).
Proof.
  intros Hq. rewrite scrape_loop_run, Hq. do 2 eexists. split; [reflexivity|].
  cbn [app store]. rewrite !length_map.
  split; [apply length_seq|]. split; [apply NoDup_seq|]. split.
  - intros i u Hu.
    assert (Hd : map (scraped http_get parse) (map normalize raw_urls) !! i
                 = Some (scraped http_get parse (normalize u))).
    { rewrite !list_lookup_fmap. rewrite Hu. reflexivity. }
    destruct (loop_result_at (store w) _ i _ Hd) as [Hl Hs].
    rewrite !length_map in Hl.
    exists (length (store w) + i), (scraped http_get parse (normalize u)).
    split; [exact Hl|]. split; [exact Hs|]. split.
    + apply lookup_ge_None. lia.
    + rewrite scraped_url. reflexivity.
  - intros l d Hl. apply lookup_app_l_Some. exact Hl.
Qed.

(** X18. Provided no request raises an exception that is not a
    [RequestException]: when the fetch of one of the input URLs fails,
    the dict of that URL has status [error] and no image, and the loop
    still returns a result for every input URL, each with status [ok] or
    [error]. *)
Theorem failed_fetch_gives_error (http_get : string -> Outcome)
        (raw_urls : list string) (rate_limit : N) (w : World)
        (i : nat) (u : string) :
  forallb (quiet http_get) (map normalize raw_urls) = true ->
  raw_urls !! i = Some u ->
  (exists w0 w1, fetch_page http_get (normalize u) w0 = Some (None, w1)) ->
  exists (results : list ref) (w' : World),
    scrape_loop http_get parse rate_limit (length (map normalize raw_urls)) 0
                (map normalize raw_urls) [] w = Some (results, w')
    /\ length results = length raw_urls
    /\ (exists l : ref,
          results !! i = Some l
          /\ store w' !! l
             = Some {| url := normalize u; hero_image := None; og_image := None;
                       status := error |})
    /\ (forall j : nat, j < length raw_urls ->
          exists (l : ref) (d : PageResult),
            results !! j = Some l /\ store w' !! l = Some d
            /\ (status d = ok \/ status d = error)).
Proof.
  intros Hq Hu (w0 & w1 & Hfail). rewrite fetch_page_run in Hfail.
  destruct (quiet http_get (normalize u)); [|discriminate].
  injection Hfail as Hnone _.
  rewrite scrape_loop_run, Hq. do 2 eexists. split; [reflexivity|].
  cbn [app store]. rewrite !length_map. split; [apply length_seq|]. split.
  - assert (Hd : map (scraped http_get parse) (map normalize raw_urls) !! i
                 = Some (scraped http_get parse (normalize u))).
    { rewrite !list_lookup_fmap. rewrite Hu. reflexivity. }
    destruct (loop_result_at (store w) _ i _ Hd) as [Hl Hs].
    rewrite !length_map in Hl.
    exists (length (store w) + i). split; [exact Hl|].
    rewrite Hs. unfold scraped. rewrite Hnone. reflexivity.
  - intros j Hj. destruct (lookup_lt_is_Some_2 raw_urls j Hj) as [v Hv].
    assert (Hd : map (scraped http_get parse) (map normalize raw_urls) !! j
                 = Some (scraped http_get parse (normalize v))).
    { rewrite !list_lookup_fmap. rewrite Hv. reflexivity. }
    destruct (loop_result_at (store w) _ j _ Hd) as [Hl Hs].
    rewrite !length_map in Hl.
    exists (length (store w) + j), (scraped http_get parse (normalize v)).
    split; [exact Hl|]. split; [exact Hs|].
    rewrite scraped_status. destruct (fetched http_get (normalize v)); auto.
Qed.


(** C10. [scrape_images] returns when [fetch_page] does, and the dict it
    returns has status [ok] or [error], never [pending]: [ok] exactly
    when [fetch_page] returned a response. *)
Theorem status_ok_or_error (http_get : string -> Outcome)
        (target : string) (w : World) :
  (scrape_images http_get parse target w = None
   <-> fetch_page http_get target w = None)
  /\ forall (l : ref) (w' : World),
       scrape_images http_get parse target w = Some (l, w') ->
       exists (d : PageResult) (resp : option Response) (wf : World),
         store w' !! l = Some d
         /\ fetch_page http_get target w = Some (resp, wf)
         /\ (status d = ok \/ status d = error)
         /\ status d <> pending
         /\ (status d = ok <-> resp <> None)
         /\ (status d = error <-> resp = None).
Proof.
  rewrite scrape_images_run, fetch_page_run.
  destruct (quiet http_get target); [|split; [tauto | discriminate]].
  split; [split; discriminate|]. intros l w' [= <- <-].
  exists (scraped http_get parse target). do 2 eexists. split.
  { cbn [store]. rewrite lookup_app_r by lia. rewrite Nat.sub_diag. reflexivity. }
  split; [reflexivity|]. rewrite scraped_status.
  destruct (fetched http_get target) as [r|].
  - repeat split; auto; try congruence.
  - repeat split; auto; try congruence.
Qed.

End ScrapeClaims.

(* ===================================================================== *)
(** ** The packager: tasks, skipped downloads, the empty archive *)
(* ===================================================================== *)

Lemma truthy_nonempty (s : string) : PyStr.truthy s = true <-> s <> EmptyString.
Proof. destruct s; simpl; split; congruence. Qed.

Lemma discovered_spec (v : option string) (s : string) :
  discovered v = Some s <-> v = Some s /\ s <> EmptyString.
Proof.
  unfold discovered. destruct v as [[|a x]|]; simpl.
  - split; [discriminate | intros [[= <-] H]; congruence].
  - split; [intros [= <-]; split; [reflexivity | discriminate]
           | intros [H _]; exact H].
  - split; [discriminate | intros [H _]; discriminate].
Qed.

(** The tasks of one result: the hero image, if there is one and it is
    not the empty string, then the og image under the same condition. *)
Lemma tasks_of_member (d : PageResult) (img page kind : string) :
  In (img, page, kind) (tasks_of d)
  <-> page = url d /\ img <> EmptyString
      /\ ((kind = "hero" /\ hero_image d = Some img)
          \/ (kind = "og" /\ og_image d = Some img)).
Proof.
  unfold tasks_of. rewrite in_app_iff. split.
  - intros [H|H].
    + destruct (discovered (hero_image d)) as [h|] eqn:Hh; [|contradiction].
      destruct H as [[= <- <- <-]|[]]. apply discovered_spec in Hh. tauto.
    + destruct (discovered (og_image d)) as [o|] eqn:Ho; [|contradiction].
      destruct H as [[= <- <- <-]|[]]. apply discovered_spec in Ho. tauto.
  - intros (-> & Hne & [[-> Hh]|[-> Ho]]).
    + left. assert (H : discovered (hero_image d) = Some img)
        by (apply discovered_spec; tauto).
      rewrite H. left. reflexivity.
    + right. assert (H : discovered (og_image d) = Some img)
        by (apply discovered_spec; tauto).
      rewrite H. left. reflexivity.
Qed.

Section ZipClaims.

Variable http_get : string -> Outcome.
Variable urlparse_rejects : string -> bool.
Variable members_bytes : list ZipEntry -> list Byte.byte.

(** [build_zip] returns exactly when every task passes. *)
Lemma build_zip_returns (w : World) (rs : list ref) (ds : list PageResult) :
  points_to w rs ds ->
  (exists (out : option (list Byte.byte)) (w' : World),
      build_zip http_get urlparse_rejects members_bytes rs w = Some (out, w'))
  <-> forallb (task_passes http_get urlparse_rejects) (flat_map tasks_of ds) = true.
Proof.
  intros Hp. rewrite (build_zip_run http_get urlparse_rejects members_bytes w rs ds Hp).
  destruct (forallb _ (flat_map tasks_of ds)); split; eauto.
  - intros (out & w' & H). discriminate.
  - discriminate.
Qed.

(** C5, amended. The packager visits the results in input order and
    emits, per result, a hero task if the hero image is present and not
    the empty string, then an og task if the og image is present and not
    the empty string; it returns no archive exactly when this task list
    is empty: without a task it returns nothing at once, and whenever it
    returns nothing there was no task. *)
Theorem tasks_in_result_order (w : World) (rs : list ref) (ds : list PageResult) :
  points_to w rs ds ->
  collect_tasks rs [] w = Some (flat_map tasks_of ds, w)
  /\ (forall d : PageResult,
        tasks_of d
        = match hero_image d with
          | Some h => if String.eqb h "" then [] else [(h, url d, "hero")]
          | None => []
          end ++
          match og_image d with
          | Some o => if String.eqb o "" then [] else [(o, url d, "og")]
          | None => []
          end)
  /\ (flat_map tasks_of ds = [] ->
      build_zip http_get urlparse_rejects members_bytes rs w = Some (None, w))
  /\ (forall (out : option (list Byte.byte)) (w' : World),
        build_zip http_get urlparse_rejects members_bytes rs w = Some (out, w') ->
        (out = None <-> flat_map tasks_of ds = []))
  /\ (forallb (task_passes http_get urlparse_rejects) (flat_map tasks_of ds) = true ->
      exists (out : option (list Byte.byte)) (w' : World),
        build_zip http_get urlparse_rejects members_bytes rs w = Some (out, w')).
Proof.
  intros Hp. split; [|split; [|split; [|split]]].
  - apply (collect_tasks_run w rs ds Hp []).
  - intros d. unfold tasks_of, discovered.
    destruct (hero_image d) as [[|a h]|], (og_image d) as [[|b o]|]; reflexivity.
  - intros Hnil.
    rewrite (build_zip_run http_get urlparse_rejects members_bytes w rs ds Hp), Hnil.
    cbn. rewrite app_nil_r. destruct w; reflexivity.
  - intros out w' H.
    rewrite (build_zip_run http_get urlparse_rejects members_bytes w rs ds Hp) in H.
    destruct (forallb _ (flat_map tasks_of ds)); [|discriminate].
    injection H as <- _. destruct (flat_map tasks_of ds); split; congruence.
  - intros Hpass. apply (build_zip_returns w rs ds Hp). exact Hpass.
Qed.



Lemma no_members_when_all_fail (ts : list ImageTask) :
  (forall img page kind : string,
      In (img, page, kind) ts -> fetched http_get img = None) ->
  flat_map (member_of http_get) ts = [].
Proof.
  induction ts as [|[[img page] kind] ts IH]; intros Hfail; [reflexivity|].
  cbn [flat_map]. rewrite IH.
  - unfold member_of. rewrite (Hfail img page kind) by (left; reflexivity).
    reflexivity.
  - intros i p k Hin. apply (Hfail i p k). right. exact Hin.
Qed.

Lemma failed_tasks_pass (ts : list ImageTask) :
  (forall img page kind : string,
      In (img, page, kind) ts ->
      fetched http_get img = None /\ quiet http_get img = true) ->
  forallb (task_passes http_get urlparse_rejects) ts = true.
Proof.
  intros H. apply forallb_forall. intros [[img page] kind] Hin.
  destruct (H img page kind Hin) as [Hf Hq]. unfold task_passes.
  rewrite Hf, Hq. reflexivity.
Qed.

(** X20. When there are tasks and every download fails with a
    [RequestException] or a raising status, the packager still returns a
    buffer: the 22 bytes of the end record of an archive without members,
    which read back as an archive of zero members. *)
Theorem all_downloads_fail_empty_archive (w : World) (rs : list ref)
        (ds : list PageResult) :
  points_to w rs ds ->
  flat_map tasks_of ds <> [] ->
  (forall img page kind : string,
      In (img, page, kind) (flat_map tasks_of ds) ->
      fetched http_get img = None /\ quiet http_get img = true) ->
  exists (buf : list Byte.byte) (w' : World),
    build_zip http_get urlparse_rejects members_bytes rs w = Some (Some buf, w')
    /\ buf = end_record_empty
    /\ length buf = 22
    /\ read_empty_archive buf = Some 0%N.
Proof.
  intros Hp Hne Hfail.
  rewrite (build_zip_run http_get urlparse_rejects members_bytes w rs ds Hp).
  rewrite (failed_tasks_pass _ Hfail).
  assert (Hm : flat_map (member_of http_get) (flat_map tasks_of ds) = []).
  { apply no_members_when_all_fail. intros i p k Hin. apply (Hfail i p k Hin). }
  destruct (flat_map tasks_of ds) as [|t ts]; [congruence|].
  rewrite Hm. exists end_record_empty. eexists.
  split; [reflexivity|]. split; [reflexivity|]. split; reflexivity.
Qed.

(** A task whose request raises another exception than
    [RequestException] makes [build_zip] raise. *)
Lemma raising_download_aborts (w : World) (rs : list ref) (ds : list PageResult)
      (img page kind : string) :
  points_to w rs ds ->
  In (img, page, kind) (flat_map tasks_of ds) ->
  http_get img = RaisedOther ->
  build_zip http_get urlparse_rejects members_bytes rs w = None.
Proof.
  intros Hp Hin Hraise.
  rewrite (build_zip_run http_get urlparse_rejects members_bytes w rs ds Hp).
  destruct (forallb _ (flat_map tasks_of ds)) eqn:Hpass; [|reflexivity].
  rewrite forallb_forall in Hpass. specialize (Hpass _ Hin).
  unfold task_passes, quiet in Hpass. rewrite Hraise in Hpass. discriminate.
Qed.

(** So does an image that downloads but has a URL, its own or its
    page's, that [urlparse] rejects. *)
Lemma rejected_url_aborts (w : World) (rs : list ref) (ds : list PageResult)
      (img page kind : string) (resp : Response) :
  points_to w rs ds ->
  In (img, page, kind) (flat_map tasks_of ds) ->
  fetched http_get img = Some resp ->
  urlparse_rejects page || urlparse_rejects img = true ->
  build_zip http_get urlparse_rejects members_bytes rs w = None.
Proof.
  intros Hp Hin Hf Hrej.
  rewrite (build_zip_run http_get urlparse_rejects members_bytes w rs ds Hp).
  destruct (forallb _ (flat_map tasks_of ds)) eqn:Hpass; [|reflexivity].
  rewrite forallb_forall in Hpass. specialize (Hpass _ Hin).
  unfold task_passes in Hpass. rewrite Hf, Hrej in Hpass.
  rewrite andb_false_r in Hpass. discriminate.
Qed.

End ZipClaims.

(* ===================================================================== *)
(** ** The og image *)
(* ===================================================================== *)

(** C2, amended. Og extraction looks at the first meta element, in
    document order, whose [property] is [og:image], and at no other; it
    returns that element's content, trimmed, exactly when the content
    attribute is there and is not the empty string. The test comes before
    the trimming: a content of white space alone gives the empty string. *)
Theorem og_image_first_meta (soup : PageElement) :
  (forall v : string,
      extract_og_image soup = Some v
      <-> exists (pre post : list PageElement) (t : PageElement) (c : string),
            descendants soup = pre ++ t :: post
            /\ is_og_meta t = true
            /\ Forall (fun e => is_og_meta e = false) pre
            /\ get_attr t "content" = Some c
            /\ c <> EmptyString
            /\ v = PyStr.strip c)
  /\ (forall e : PageElement,
        is_og_meta e = true
        <-> exists (attrs : gmap string string) (cs : list PageElement),
              e = Tag "meta" attrs cs /\ attrs !! "property" = Some "og:image").
Proof.
  split; [|apply is_og_meta_tag].
  intros v. unfold extract_og_image. rewrite find_is_first.
  fold is_og_meta.
  change (fun d => is_named "meta" d && attr_equals "property" "og:image" d)
    with is_og_meta.
  unfold stripped_attr. split.
  - destruct (List.find is_og_meta (descendants soup)) as [t|] eqn:Hf; [|discriminate].
    apply find_first in Hf as (pre & post & Hd & Ht & Hpre).
    destruct (get_attr t "content") as [c|] eqn:Hc; [|discriminate].
    destruct (PyStr.truthy c) eqn:Hn; [|discriminate].
    intros [= <-]. exists pre, post, t, c. repeat split; try assumption.
    intros ->. discriminate.
  - intros (pre & post & t & c & Hd & Ht & Hpre & Hc & Hne & ->).
    assert (Hf : List.find is_og_meta (descendants soup) = Some t).
    { apply find_first. exists pre, post. auto. }
    rewrite Hf, Hc. destruct c; [congruence | reflexivity].
Qed.

(** C2 as stated fails: for a content of one space the claim gives no og
    image, the code gives the empty string. *)
Lemma blank_content_gives_empty_string :
  extract_og_image page_blank_og = Some ""
  /\ claimed_og_image page_blank_og = None
  /\ extract_og_image page_blank_og <> claimed_og_image page_blank_og.
Proof. vm_compute. repeat split; discriminate. Qed.

(* ===================================================================== *)
(** ** The entry name *)
(* ===================================================================== *)

Lemma sub_non_word_length (s : string) :
  String.length (PyStr.sub_non_word s) = String.length s.
Proof. induction s as [|a s IH]; simpl; [reflexivity | rewrite IH; reflexivity]. Qed.

Lemma sub_non_word_get (s : string) :
  forall (i : nat) (a : ascii),
    String.get i s = Some a ->
    String.get i (PyStr.sub_non_word s)
    = Some (if PyStr.is_word a || Ascii.eqb a "-" then a else "_"%char).
Proof.
  induction s as [|b s IH]; intros i a; [discriminate|].
  destruct i as [|i]; simpl.
  - intros [= ->]. reflexivity.
  - apply IH.
Qed.

(** Below 128 the word characters and the hyphen are [A-Za-z0-9_-]. *)
Lemma keep_ascii (a : ascii) :
  (N_of_ascii a < 128)%N -> PyStr.is_word a || Ascii.eqb a "-" = claimed_keep a.
Proof.
  destruct a as [[] [] [] [] [] [] [] []]; intros H;
    solve [reflexivity | vm_compute in H; discriminate].
Qed.

Lemma sub_non_word_ascii (s : string) :
  PyStr.all_chars (fun a => (N_of_ascii a <? 128)%N) s = true ->
  PyStr.sub_non_word s = claimed_slug s.
Proof.
  induction s as [|a s IH]; [reflexivity|].
  simpl. intros H. apply andb_prop in H as [Ha Hs].
  apply N.ltb_lt in Ha. rewrite (keep_ascii a Ha), (IH Hs). reflexivity.
Qed.

(** C6, amended. The entry name is [<page-slug>__<kind>__<image-name>]:
    the image name is the last path segment of the image URL, or [image]
    if that is empty; the page slug is the last path segment of the page
    URL, or [page] if that is empty, in which every character that is
    neither a word character nor [-] is replaced by [_]. Word characters
    are the letters, digits and underscore of the regular expression
    class [\w]: below code point 128 exactly [A-Za-z0-9_], above it the
    accented letters and the like as well. *)
Theorem safe_filename_shape (img_url page_url kind : string) :
  let seg := if PyStr.truthy (last_segment page_url)
             then last_segment page_url else "page" in
  let name := if PyStr.truthy (last_segment img_url)
              then last_segment img_url else "image" in
  exists slug : string,
    _safe_filename img_url page_url kind = (slug ++ "__" ++ kind ++ "__" ++ name)%string
    /\ String.length slug = String.length seg
    /\ (forall (i : nat) (a : ascii),
          String.get i seg = Some a ->
          String.get i slug
          = Some (if PyStr.is_word a || Ascii.eqb a "-" then a else "_"%char))
    /\ (forall a : ascii,
          (N_of_ascii a < 128)%N ->
          PyStr.is_word a || Ascii.eqb a "-" = claimed_keep a)
    /\ (PyStr.all_chars (fun a => (N_of_ascii a <? 128)%N) seg = true ->
        _safe_filename img_url page_url kind
        = claimed_safe_filename img_url page_url kind).
Proof.
  intros seg name. exists (PyStr.sub_non_word seg).
  split; [reflexivity|]. split; [apply sub_non_word_length|].
  split; [apply sub_non_word_get|]. split; [apply keep_ascii|].
  intros Hascii. unfold _safe_filename, claimed_safe_filename, last_segment, py_or.
  fold (last_segment page_url). fold seg.
  rewrite (sub_non_word_ascii seg Hascii). reflexivity.
Qed.

(** C6 as stated fails: the accented letter (code point 233) that ends
    the last segment of the page URL is kept, where the claim has an
    underscore. *)
Lemma accented_letter_kept :
  _safe_filename "https://x/hero.jpg" cafe_url "hero"
  = ("caf" ++ String (ascii_of_N 233) "__hero__hero.jpg")%string
  /\ claimed_safe_filename "https://x/hero.jpg" cafe_url "hero"
     = "caf___hero__hero.jpg"
  /\ _safe_filename "https://x/hero.jpg" cafe_url "hero"
     <> claimed_safe_filename "https://x/hero.jpg" cafe_url "hero".
Proof. vm_compute. repeat split; discriminate. Qed.

(* ===================================================================== *)
(** ** The hero image *)
(* ===================================================================== *)

Lemma exact_below (soup c : PageElement) :
  exact_document soup = true ->
  In c (descendants soup) ->
  exact_tokens c = true
  /\ forall e : PageElement, In e (descendants c) -> exact_tokens e = true.
Proof.
  unfold exact_document. rewrite forallb_forall. intros Hex Hc. split.
  - apply Hex. exact Hc.
  - intros e He. apply Hex. apply (descendants_trans soup c e Hc He).
Qed.

(** The first [no_lazy] img below [c] and its [src]. *)
Lemma no_lazy_src_below (c : PageElement) :
  (forall e : PageElement, In e (descendants c) -> exact_tokens e = true) ->
  stripped_attr (find c "img" (class_matches has_no_lazy)) "src"
  = first_no_lazy_src c.
Proof.
  intros Hex. rewrite find_is_first. unfold first_no_lazy_src.
  rewrite (find_ext_in _ is_no_lazy_img).
  - destruct (List.find is_no_lazy_img (descendants c)) as [i|]; [|reflexivity].
    unfold stripped_attr, has_src, trimmed_src.
    destruct (get_attr i "src") as [v|]; [|reflexivity].
    destruct (PyStr.truthy v); reflexivity.
  - intros e He. unfold is_no_lazy_img. f_equal.
    apply (class_matches_marker "no_lazy" e); [left; reflexivity | apply Hex; exact He].
Qed.

Lemma fallback_over_s_col (divs : list PageElement) :
  (forall d e : PageElement,
      In d divs -> In e (descendants d) -> exact_tokens e = true) ->
  hero_fallback divs = first_some first_no_lazy_src divs.
Proof.
  induction divs as [|d divs IH]; intros Hex; [reflexivity|].
  cbn [hero_fallback first_some].
  rewrite (no_lazy_src_below d) by (intros e He; apply (Hex d e); [left; reflexivity | exact He]).
  destruct (first_no_lazy_src d); [reflexivity|].
  apply IH. intros d' e Hd He. apply (Hex d' e); [right; exact Hd | exact He].
Qed.

(** A container is a div that has all five marker tokens in its class
    list, whatever else the list holds. *)
Lemma is_container_tokens (e : PageElement) :
  is_container e = true
  <-> exists (attrs : gmap string string) (cs : list PageElement) (cls : string),
        e = Tag "div" attrs cs
        /\ attrs !! "class" = Some cls
        /\ forall rc : string,
             In rc required_classes -> In rc (PyStr.split_ws cls).
Proof.
  unfold is_container, has_token, get_class, is_named. split.
  - destruct e as [s|n attrs cs]; [discriminate|]. cbn [get_attr].
    intros H. apply andb_prop in H as [Hn Hf]. apply String.eqb_eq in Hn as ->.
    destruct (attrs !! "class") as [cls|] eqn:Hcls; [|discriminate].
    exists attrs, cs, cls. split; [reflexivity|]. split; [exact Hcls|].
    intros rc Hrc. rewrite forallb_forall in Hf. specialize (Hf rc Hrc).
    cbn in Hf. apply existsb_exists in Hf as (t & Ht & Heq).
    apply String.eqb_eq in Heq as ->. exact Ht.
  - intros (attrs & cs & cls & -> & Hcls & Hall). cbn [get_attr]. rewrite Hcls.
    rewrite String.eqb_refl. cbn [andb fmap option_fmap option_map].
    apply forallb_forall. intros rc Hrc. apply existsb_exists.
    exists rc. split; [apply Hall; exact Hrc | apply String.eqb_refl].
Qed.

(** C1, amended. In a document whose class tokens hold a marker string
    only by being it, hero extraction follows two tiers. First, the first
    div in document order whose class list has all five marker tokens,
    extra tokens allowed: the first img below it that has the token
    [no_lazy] decides, and its trimmed [src] is returned if that [src] is
    not empty. Otherwise the divs that have the token [s_col] are visited
    in document order, and the trimmed [src] of the first [no_lazy] img
    of the first div whose first [no_lazy] img has a non-empty [src] is
    returned. Otherwise there is no hero image. *)
Theorem hero_two_tiers (soup : PageElement) :
  exact_document soup = true ->
  extract_hero_image soup = two_tier_hero_image soup
  /\ (forall e : PageElement,
        is_container e = true
        <-> exists (attrs : gmap string string) (cs : list PageElement) (cls : string),
              e = Tag "div" attrs cs
              /\ attrs !! "class" = Some cls
              /\ forall rc : string,
                   In rc required_classes -> In rc (PyStr.split_ws cls)).
Proof.
  intros Hex. split; [|apply is_container_tokens].
  unfold extract_hero_image, two_tier_hero_image.
  rewrite find_is_first.
  rewrite (find_ext_in _ is_container).
  2:{ intros e He. unfold is_container. f_equal.
      apply class_matches_required. exact (proj1 (exact_below soup e Hex He)). }
  assert (Hprimary :
            match List.find is_container (descendants soup) with
            | Some c => stripped_attr (find c "img" (class_matches has_no_lazy)) "src"
            | None => None
            end
            = match List.find is_container (descendants soup) with
              | Some c => first_no_lazy_src c
              | None => None
              end).
  { destruct (List.find is_container (descendants soup)) as [c|] eqn:Hc; [|reflexivity].
    apply find_some in Hc as [Hc _].
    apply no_lazy_src_below. exact (proj2 (exact_below soup c Hex Hc)). }
  rewrite Hprimary.
  destruct (match List.find is_container (descendants soup) with
            | Some c => first_no_lazy_src c
            | None => None
            end); [reflexivity|].
  unfold find_all.
  rewrite (List.filter_ext_in _ is_s_col_div).
  2:{ intros e He. unfold is_s_col_div. f_equal.
      apply (class_matches_marker "s_col" e);
        [right; left; reflexivity | exact (proj1 (exact_below soup e Hex He))]. }
  apply fallback_over_s_col. intros d e Hd He.
  apply List.filter_In in Hd as [Hd _].
  exact (proj2 (exact_below soup d Hex Hd) e He).
Qed.

Lemma hero_two_tiers_sample :
  extract_hero_image page_primary = two_tier_hero_image page_primary
  /\ (forall e : PageElement,
        is_container e = true
        <-> exists (attrs : gmap string string) (cs : list PageElement) (cls : string),
              e = Tag "div" attrs cs
              /\ attrs !! "class" = Some cls
              /\ forall rc : string,
                   In rc required_classes -> In rc (PyStr.split_ws cls)).
Proof. apply (hero_two_tiers page_primary). vm_compute. reflexivity. Defined.

(** C1 as stated fails: below the container the first [no_lazy] img has
    no [src] and the second has one. The claim returns the second img's
    [src]; the code looks at the first [no_lazy] img only, in both
    tiers, and finds no hero image. The class tokens are the markers
    themselves. *)
Lemma second_img_not_considered :
  exact_document page_two_imgs = true
  /\ claimed_hero_image page_two_imgs = Some "https://x/second.jpg"
  /\ extract_hero_image page_two_imgs = None
  /\ extract_hero_image page_two_imgs <> claimed_hero_image page_two_imgs.
Proof. vm_compute. repeat split; discriminate. Qed.

(* ===================================================================== *)
(** ** The theorems at the sample inputs *)
(* ===================================================================== *)

Lemma one_result_per_url_sample :
  exists (results : list ref) (w' : World),
    scrape_loop sample_net sample_parse 1500
                (length (map normalize [hotwire; "brightdata.com/missing"; hotwire])) 0
                (map normalize [hotwire; "brightdata.com/missing"; hotwire]) []
                empty_world = Some (results, w')
    /\ length results = length [hotwire; "brightdata.com/missing"; hotwire]
    /\ NoDup results
    /\ (forall (i : nat) (u : string),
          [hotwire; "brightdata.com/missing"; hotwire] !! i = Some u ->
          exists (l : ref) (d : PageResult),
            results !! i = Some l /\ store w' !! l = Some d
            /\ store empty_world !! l = None
            /\ url d = if PyStr.startswith u "http" then u else ("https://" ++ u)%string)
    /\ (forall (l : ref) (d : PageResult),
          store empty_world !! l = Some d -> store w' !! l = Some d).
Proof.
  apply (one_result_per_url sample_parse sample_net
           [hotwire; "brightdata.com/missing"; hotwire] 1500 empty_world).
  vm_compute. reflexivity.
Defined.

Lemma failed_fetch_gives_error_sample :
  exists (results : list ref) (w' : World),
    scrape_loop sample_net sample_parse 1500
                (length (map normalize ["brightdata.com/missing"; hotwire])) 0
                (map normalize ["brightdata.com/missing"; hotwire]) [] empty_world
    = Some (results, w')
    /\ length results = length ["brightdata.com/missing"; hotwire]
    /\ (exists l : ref,
          results !! 0 = Some l
          /\ store w' !! l
             = Some {| url := normalize "brightdata.com/missing"; hero_image := None;
                       og_image := None; status := error |})
    /\ (forall j : nat, j < length ["brightdata.com/missing"; hotwire] ->
          exists (l : ref) (d : PageResult),
            results !! j = Some l /\ store w' !! l = Some d
            /\ (status d = ok \/ status d = error)).
Proof.
  apply (failed_fetch_gives_error sample_parse sample_net
           ["brightdata.com/missing"; hotwire] 1500 empty_world 0
           "brightdata.com/missing").
  - vm_compute. reflexivity.
  - reflexivity.
  - exists empty_world. eexists. vm_compute. reflexivity.
Defined.


Lemma tasks_in_result_order_sample :
  collect_tasks [0] [] sample_world
  = Some (flat_map tasks_of (store sample_world), sample_world)
  /\ (forall d : PageResult,
        tasks_of d
        = match hero_image d with
          | Some h => if String.eqb h "" then [] else [(h, url d, "hero")]
          | None => []
          end ++
          match og_image d with
          | Some o => if String.eqb o "" then [] else [(o, url d, "og")]
          | None => []
          end)
  /\ (flat_map tasks_of (store sample_world) = [] ->
      build_zip sample_net Url.unmatched_bracket sample_members [0] sample_world
      = Some (None, sample_world))
  /\ (forall (out : option (list Byte.byte)) (w' : World),
        build_zip sample_net Url.unmatched_bracket sample_members [0] sample_world
        = Some (out, w') ->
        (out = None <-> flat_map tasks_of (store sample_world) = []))
  /\ (forallb (task_passes sample_net Url.unmatched_bracket)
              (flat_map tasks_of (store sample_world)) = true ->
      exists (out : option (list Byte.byte)) (w' : World),
        build_zip sample_net Url.unmatched_bracket sample_members [0] sample_world
        = Some (out, w')).
Proof.
  apply (tasks_in_result_order sample_net Url.unmatched_bracket sample_members
           sample_world [0] (store sample_world)).
  repeat constructor.
Defined.


Lemma all_downloads_fail_empty_archive_sample :
  exists (buf : list Byte.byte) (w' : World),
    build_zip sample_net_pages Url.unmatched_bracket sample_members [0] sample_world
    = Some (Some buf, w')
    /\ buf = end_record_empty
    /\ length buf = 22
    /\ read_empty_archive buf = Some 0%N.
Proof.
  apply (all_downloads_fail_empty_archive sample_net_pages Url.unmatched_bracket
           sample_members sample_world [0] (store sample_world)).
  - repeat constructor.
  - vm_compute. discriminate.
  - intros img page kind [[= <- <- <-]|[[= <- <- <-]|[]]]; vm_compute;
      split; reflexivity.
Defined.

(** The sample run of the packager: the hero image downloads, the og
    image meets a server error and is left out. *)
Example sample_archive :
  exists w' : World,
    build_zip sample_net Url.unmatched_bracket sample_members [0] sample_world
    = Some (Some (sample_members
                    [{| arcname := "hotwire__hero__hero.jpg"; entry_data := jpeg |}]),
            w')
    /\ store w' = store sample_world.
Proof. eexists. vm_compute. split; reflexivity. Qed.

(* ===================================================================== *)
(** ** Where the code differs from the wording of the specification *)
(* ===================================================================== *)

(** C5 as stated fails: a dict whose og image is the empty string has an
    og image present, yet the packager builds no task for it and returns
    no archive. *)
Lemma empty_string_image_has_no_task :
  points_to blank_og_world [0] (store blank_og_world)
  /\ flat_map claimed_tasks_of (store blank_og_world) = [("", hotwire, "og")]
  /\ collect_tasks [0] [] blank_og_world = Some ([], blank_og_world)
  /\ collect_tasks [0] [] blank_og_world
     <> Some (flat_map claimed_tasks_of (store blank_og_world), blank_og_world)
  /\ build_zip sample_net Url.unmatched_bracket sample_members [0] blank_og_world
     = Some (None, blank_og_world).
Proof.
  split; [repeat constructor|]. split; [reflexivity|]. split; [reflexivity|].
  split; [|reflexivity]. vm_compute. discriminate.
Qed.

(* ===================================================================== *)
(** ** Exceptions that nothing catches *)
(* ===================================================================== *)

(** C3. The single input [brightdata..com/x] is normalized and
    requested; the request raises [LocationParseError], which
    [fetch_page] does not catch, and [main] raises with it: there is no
    result for the URL. *)
Theorem bad_host_leaves_no_result :
  normalize "brightdata..com/x" = "https://brightdata..com/x"
  /\ faulty_net "https://brightdata..com/x" = RaisedOther
  /\ fetch_page faulty_net "https://brightdata..com/x" empty_world = None
  /\ scrape_loop faulty_net sample_parse 1500 1 0
                 (map normalize ["brightdata..com/x"]) [] empty_world = None
  /\ main_scrape faulty_net sample_parse ["brightdata..com/x"] 1500 empty_world
     = None.
Proof. vm_compute. repeat split. Qed.

(** C4. In a batch of three the second request raises
    [LocationParseError]: the loop raises, and with it go the result of
    the first URL and the turn of the third, although the two of them
    alone are scraped without trouble. *)
Theorem bad_host_aborts_batch :
  scrape_loop faulty_net sample_parse 1500 3 0
              (map normalize [hotwire; "brightdata..com/x"; hotwire]) []
              empty_world = None
  /\ exists w' : World,
       scrape_loop faulty_net sample_parse 1500 2 0
                   (map normalize [hotwire; hotwire]) [] empty_world
       = Some ([0; 1], w').
Proof. split; [vm_compute; reflexivity|]. eexists. vm_compute. reflexivity. Qed.

(** C7. The hero image downloads, the request for the og image raises
    [LocationParseError]: [build_zip] raises, and the archive with the
    hero image is never returned. *)
Theorem bad_host_aborts_packaging :
  points_to bad_og_world [0] (store bad_og_world)
  /\ flat_map tasks_of (store bad_og_world)
     = [("https://x/hero.jpg", hotwire, "hero");
        ("https://cdn..example.com/img/a.png", hotwire, "og")]
  /\ fetched faulty_net "https://x/hero.jpg"
     = Some {| status_code := 200; text := ""; content := jpeg |}
  /\ faulty_net "https://cdn..example.com/img/a.png" = RaisedOther
  /\ build_zip faulty_net Url.unmatched_bracket sample_members [0] bad_og_world
     = None.
Proof.
  split; [repeat constructor|]. vm_compute. repeat split.
Qed.

(** C9. The only image is one whose request raises
    [LocationParseError]: there is a task, no download succeeds, and
    [build_zip] raises instead of returning the archive without members. *)
Theorem bad_host_gives_no_archive :
  points_to only_bad_og_world [0] (store only_bad_og_world)
  /\ flat_map tasks_of (store only_bad_og_world)
     = [("https://cdn..example.com/img/a.png", hotwire, "og")]
  /\ fetched faulty_net "https://cdn..example.com/img/a.png" = None
  /\ build_zip faulty_net Url.unmatched_bracket sample_members [0] only_bad_og_world
     = None.
Proof.
  split; [repeat constructor|]. vm_compute. repeat split.
Qed.

(** The [ValueError] of [urlparse] does the same after a download that
    succeeded: the image URL has an unmatched bracket before its host. *)
Example unmatched_bracket_aborts_packaging :
  Url.unmatched_bracket "http://user[@x/hero.jpg" = true
  /\ fetched bracket_net "http://user[@x/hero.jpg"
     = Some {| status_code := 200; text := ""; content := jpeg |}
  /\ build_zip bracket_net Url.unmatched_bracket sample_members [0] bracket_world
     = None.
Proof. vm_compute. repeat split. Qed.

(* ===================================================================== *)
(** ** Where an extracted URL comes from *)
(* ===================================================================== *)

Lemma lstrip_start (s : string) :
  PyStr.lstrip s = EmptyString
  \/ exists (a : ascii) (r : string),
       PyStr.lstrip s = String a r /\ PyStr.is_space a = false.
Proof.
  induction s as [|a s IH]; [left; reflexivity|].
  simpl. destruct (PyStr.is_space a) eqn:Ha; [exact IH|].
  right. exists a, s. split; [reflexivity | exact Ha].
Qed.

Lemma rstrip_keeps_start (a : ascii) (r : string) :
  PyStr.is_space a = false -> PyStr.rstrip (String a r) = String a (PyStr.rstrip r).
Proof. intros Ha. simpl. rewrite Ha. reflexivity. Qed.

Lemma rstrip_idem (s : string) : PyStr.rstrip (PyStr.rstrip s) = PyStr.rstrip s.
Proof.
  induction s as [|a s IH]; [reflexivity|].
  cbn [PyStr.rstrip].
  destruct (PyStr.is_space a && negb (PyStr.truthy (PyStr.rstrip s))) eqn:Hc;
    [reflexivity|].
  cbn [PyStr.rstrip]. rewrite IH, Hc. reflexivity.
Qed.

(** Trimming twice is trimming once. *)
Lemma strip_idem (s : string) : PyStr.strip (PyStr.strip s) = PyStr.strip s.
Proof.
  unfold PyStr.strip. destruct (lstrip_start s) as [->|(a & r & -> & Ha)];
    [reflexivity|].
  rewrite (rstrip_keeps_start a r Ha). cbn [PyStr.lstrip]. rewrite Ha.
  rewrite (rstrip_keeps_start a _ Ha), rstrip_idem. reflexivity.
Qed.

(** A trimmed string that is not empty starts with a character that is
    not white space. *)
Lemma strip_start (s : string) (a : ascii) (r : string) :
  PyStr.strip s = String a r -> PyStr.is_space a = false.
Proof.
  unfold PyStr.strip. destruct (lstrip_start s) as [->|(b & t & -> & Hb)];
    [discriminate|].
  rewrite (rstrip_keeps_start b t Hb). intros [= <- _]. exact Hb.
Qed.

Lemma stripped_attr_Some (tag : option PageElement) (key v : string) :
  stripped_attr tag key = Some v
  <-> exists (t : PageElement) (c : string),
        tag = Some t /\ get_attr t key = Some c /\ c <> EmptyString
        /\ v = PyStr.strip c.
Proof.
  unfold stripped_attr. split.
  - destruct tag as [t|]; [|discriminate].
    destruct (get_attr t key) as [c|] eqn:Hg; [|discriminate].
    destruct c as [|a c]; simpl; [discriminate|]. intros [= <-].
    exists t, (String a c). repeat split; [assumption | discriminate].
  - intros (t & c & -> & Hg & Hc & ->). rewrite Hg.
    destruct c; [congruence | reflexivity].
Qed.

Lemma hero_fallback_Some (divs : list PageElement) (v : string) :
  hero_fallback divs = Some v ->
  exists d : PageElement,
    In d divs
    /\ stripped_attr (find d "img" (class_matches has_no_lazy)) "src" = Some v.
Proof.
  induction divs as [|d divs IH]; [discriminate|].
  cbn [hero_fallback].
  destruct (stripped_attr (find d "img" (class_matches has_no_lazy)) "src")
    as [src|] eqn:Hsrc.
  - intros [= <-]. exists d. split; [left; reflexivity | exact Hsrc].
  - intros H. destruct (IH H) as (d' & Hd & Hv). exists d'.
    split; [right; exact Hd | exact Hv].
Qed.

(** The class list holds [m] inside one of its tokens. *)
Lemma holds_marker (m : string) (e : PageElement) :
  In m markers ->
  class_matches (fun c => py_and c (PyStr.contains m)) e = true ->
  exists (cls tok : string),
    get_attr e "class" = Some cls /\ In tok (PyStr.split_ws cls)
    /\ PyStr.contains m tok = true.
Proof.
  intros Hm. rewrite (class_matches_substring m e Hm). unfold get_class.
  destruct (get_attr e "class") as [cls|]; [|discriminate]. cbn.
  intros H. apply existsb_exists in H as (tok & Htok & Hc).
  exists cls, tok. auto.
Qed.

(** X1. Whatever tier finds it, a hero image is the trimmed, non-empty [src]
    of an img whose class list holds [no_lazy], and that img lies below a
    div whose class list holds [s_col]: no other element of the page can
    supply it. *)
Theorem hero_image_origin (soup : PageElement) (v : string) :
  extract_hero_image soup = Some v ->
  exists (div img : PageElement) (src : string),
    In div (descendants soup) /\ is_named "div" div = true
    /\ (exists cls tok : string,
          get_attr div "class" = Some cls /\ In tok (PyStr.split_ws cls)
          /\ PyStr.contains "s_col" tok = true)
    /\ In img (descendants div) /\ is_named "img" img = true
    /\ (exists cls tok : string,
          get_attr img "class" = Some cls /\ In tok (PyStr.split_ws cls)
          /\ PyStr.contains "no_lazy" tok = true)
    /\ get_attr img "src" = Some src /\ src <> EmptyString
    /\ v = PyStr.strip src.
Proof.
  assert (Himg : forall d : PageElement,
             stripped_attr (find d "img" (class_matches has_no_lazy)) "src" = Some v ->
             exists (img : PageElement) (src : string),
               In img (descendants d) /\ is_named "img" img = true
               /\ (exists cls tok : string,
                     get_attr img "class" = Some cls /\ In tok (PyStr.split_ws cls)
                     /\ PyStr.contains "no_lazy" tok = true)
               /\ get_attr img "src" = Some src /\ src <> EmptyString
               /\ v = PyStr.strip src).
  { intros d H. apply stripped_attr_Some in H as (img & src & Hf & Hsrc & Hne & ->).
    rewrite find_is_first in Hf. apply find_some in Hf as [Hin Hp].
    apply andb_prop in Hp as [Hn Hc].
    exists img, src. repeat split; try assumption.
    apply (holds_marker "no_lazy" img); [left; reflexivity | exact Hc]. }
  unfold extract_hero_image.
  destruct (find soup "div" (class_matches has_required_classes)) as [c|] eqn:Hc.
  - destruct (stripped_attr (find c "img" (class_matches has_no_lazy)) "src")
      as [src|] eqn:Hsrc.
    + intros [= ->]. rewrite find_is_first in Hc. apply find_some in Hc as [Hin Hp].
      apply andb_prop in Hp as [Hn Hreq].
      destruct (Himg c Hsrc) as (img & s & H1 & H2 & H3 & H4 & H5 & H6).
      exists c, img, s. repeat split; try assumption.
      rewrite class_matches_required_substring in Hreq. unfold get_class in Hreq.
      destruct (get_attr c "class") as [cls|]; [|discriminate]. cbn in Hreq.
      apply andb_prop in Hreq as [Hs _]. apply existsb_exists in Hs as (tok & Ht & Hs).
      exists cls, tok. auto.
    + intros H. apply hero_fallback_Some in H as (d & Hd & Hv).
      unfold find_all in Hd. apply List.filter_In in Hd as [Hin Hp].
      apply andb_prop in Hp as [Hn Hs].
      destruct (Himg d Hv) as (img & s & H1 & H2 & H3 & H4 & H5 & H6).
      exists d, img, s. repeat split; try assumption.
      apply (holds_marker "s_col" d); [right; left; reflexivity | exact Hs].
  - intros H. apply hero_fallback_Some in H as (d & Hd & Hv).
    unfold find_all in Hd. apply List.filter_In in Hd as [Hin Hp].
    apply andb_prop in Hp as [Hn Hs].
    destruct (Himg d Hv) as (img & s & H1 & H2 & H3 & H4 & H5 & H6).
    exists d, img, s. repeat split; try assumption.
    apply (holds_marker "s_col" d); [right; left; reflexivity | exact Hs].
Qed.

Lemma hero_is_stripped (soup : PageElement) (v : string) :
  extract_hero_image soup = Some v -> exists c : string, v = PyStr.strip c.
Proof.
  assert (Hsrc : forall tag : option PageElement,
             stripped_attr tag "src" = Some v -> exists c : string, v = PyStr.strip c).
  { intros tag H. apply stripped_attr_Some in H as (t & c & _ & _ & _ & ->).
    exists c. reflexivity. }
  unfold extract_hero_image.
  destruct (find soup "div" (class_matches has_required_classes)) as [c|].
  - destruct (stripped_attr (find c "img" (class_matches has_no_lazy)) "src")
      as [src|] eqn:Hc.
    + intros [= <-]. apply (Hsrc _ Hc).
    + intros H. apply hero_fallback_Some in H as (d & _ & Hv). apply (Hsrc _ Hv).
  - intros H. apply hero_fallback_Some in H as (d & _ & Hv). apply (Hsrc _ Hv).
Qed.

(** X2. What the extractors return is trimmed: trimming it again changes
    nothing, and if it is not empty it does not start with white space. *)
Theorem extracted_urls_are_trimmed (soup : PageElement) (v : string) :
  extract_og_image soup = Some v \/ extract_hero_image soup = Some v ->
  PyStr.strip v = v
  /\ forall (a : ascii) (r : string), v = String a r -> PyStr.is_space a = false.
Proof.
  intros H.
  assert (Hv : exists c : string, v = PyStr.strip c).
  { destruct H as [H|H].
    - unfold extract_og_image in H.
      apply stripped_attr_Some in H as (t & c & _ & _ & _ & ->). exists c. reflexivity.
    - apply (hero_is_stripped soup v H). }
  destruct Hv as [c ->]. split; [apply strip_idem|].
  intros a r Hc. apply (strip_start c a r Hc).
Qed.

Lemma no_div_no_hero (soup : PageElement) :
  (forall e : PageElement, In e (descendants soup) -> is_named "div" e = false) ->
  extract_hero_image soup = None.
Proof.
  intros Hno.
  assert (Hall : forall flt : PageElement -> bool, find_all soup "div" flt = []).
  { intros flt. unfold find_all.
    induction (descendants soup) as [|e l IH]; [reflexivity|].
    cbn [List.filter]. rewrite (Hno e) by (left; reflexivity). cbn [andb].
    apply IH. intros e' He'. apply Hno. right. exact He'. }
  unfold extract_hero_image, find. rewrite !Hall. reflexivity.
Qed.

Lemma no_meta_no_og (soup : PageElement) :
  (forall e : PageElement, In e (descendants soup) -> is_named "meta" e = false) ->
  extract_og_image soup = None.
Proof.
  intros Hno. unfold extract_og_image, find, find_all.
  induction (descendants soup) as [|e l IH]; [reflexivity|].
  cbn [List.filter]. rewrite (Hno e) by (left; reflexivity). cbn [andb].
  apply IH. intros e' He'. apply Hno. right. exact He'.
Qed.

(** X3. An extraction miss is not an error: a page that is fetched and whose
    document has no div and no meta element is recorded with status [ok]
    and without images, and no warning is shown. *)
Theorem extraction_miss_is_ok (http_get : string -> Outcome)
        (parse : string -> PageElement) (target : string) (w : World)
        (resp : Response) :
  http_get target = Responded resp ->
  raises_for_status resp = false ->
  (forall e : PageElement,
      In e (descendants (parse (text resp))) ->
      is_named "div" e = false /\ is_named "meta" e = false) ->
  exists (l : ref) (w' : World),
    scrape_images http_get parse target w = Some (l, w')
    /\ store w' !! l
       = Some {| url := target; hero_image := None; og_image := None; status := ok |}
    /\ trace w' = trace w ++ [Get target].
Proof.
  intros Hget Hok Hno. rewrite scrape_images_run.
  assert (Hq : quiet http_get target = true) by (unfold quiet; rewrite Hget; reflexivity).
  rewrite Hq. do 2 eexists. split; [reflexivity|]. cbn [store trace].
  assert (Hf : fetched http_get target = Some resp).
  { unfold fetched. rewrite Hget, Hok. reflexivity. }
  split.
  - rewrite lookup_app_r by lia. rewrite Nat.sub_diag. cbn.
    unfold scraped. rewrite Hf.
    rewrite no_div_no_hero by (intros e He; apply (Hno e He)).
    rewrite no_meta_no_og by (intros e He; apply (Hno e He)). reflexivity.
  - unfold fetch_events. rewrite Hf. reflexivity.
Qed.

(* ===================================================================== *)
(** ** Entry names *)
(* ===================================================================== *)

Lemma all_chars_app (p : ascii -> bool) (a b : string) :
  PyStr.all_chars p (a ++ b) = PyStr.all_chars p a && PyStr.all_chars p b.
Proof.
  induction a as [|x a IH]; [reflexivity|].
  simpl. rewrite IH. apply andb_assoc.
Qed.

(** The pieces of a split hold no separator. *)
Lemma split_from_pieces (sep : ascii) (s : string) :
  forall cur : string,
    PyStr.all_chars (fun a => negb (Ascii.eqb a sep)) cur = true ->
    Forall (fun x => PyStr.all_chars (fun a => negb (Ascii.eqb a sep)) x = true)
           (PyStr.split_from sep cur s).
Proof.
  induction s as [|a s IH]; intros cur Hcur.
  - constructor; [exact Hcur | constructor].
  - cbn [PyStr.split_from]. destruct (Ascii.eqb a sep) eqn:Ha.
    + constructor; [exact Hcur | apply IH; reflexivity].
    + apply IH. rewrite all_chars_app, Hcur. simpl. rewrite Ha. reflexivity.
Qed.

Lemma posix_name_no_slash (path : string) : no_slash (Url.posix_name path) = true.
Proof.
  unfold Url.posix_name, PyStr.split.
  pose proof (split_from_pieces "/" path EmptyString eq_refl) as Hall.
  set (keep := fun x => PyStr.truthy x && negb (String.eqb x ".")).
  assert (Hf : Forall (fun x => no_slash x = true)
                      (List.filter keep (PyStr.split_from "/" EmptyString path))).
  { rewrite Forall_forall in Hall |- *. intros x Hx.
    apply list_elem_of_In, List.filter_In in Hx as [Hx _].
    apply Hall, list_elem_of_In, Hx. }
  induction Hf as [|x l Hx _ IH]; [reflexivity|].
  destruct l; [exact Hx | exact IH].
Qed.

Lemma sub_non_word_no_slash (s : string) : no_slash (PyStr.sub_non_word s) = true.
Proof.
  induction s as [|a s IH]; [reflexivity|].
  unfold no_slash in *. cbn [PyStr.sub_non_word PyStr.all_chars]. rewrite IH.
  rewrite andb_true_r. destruct (Ascii.eqb_spec a "/") as [->|Hne]; [reflexivity|].
  destruct (PyStr.is_word a || Ascii.eqb a "-"); [|reflexivity].
  apply negb_true_iff. apply Ascii.eqb_neq. exact Hne.
Qed.

Lemma py_or_no_slash (x default : string) :
  no_slash x = true -> no_slash default = true -> no_slash (py_or x default) = true.
Proof. unfold py_or. destruct (PyStr.truthy x); auto. Qed.

Lemma safe_filename_no_slash (img_url page_url kind : string) :
  no_slash kind = true ->
  no_slash (_safe_filename img_url page_url kind) = true.
Proof.
  intros Hk. unfold _safe_filename, no_slash. rewrite !all_chars_app.
  fold (no_slash (PyStr.sub_non_word
                    (py_or (Url.posix_name (Url.urlparse_path page_url)) "page"))).
  fold (no_slash (py_or (Url.posix_name (Url.urlparse_path img_url)) "image")).
  fold (no_slash kind).
  rewrite sub_non_word_no_slash, Hk.
  rewrite (py_or_no_slash _ "image" (posix_name_no_slash _) eq_refl).
  reflexivity.
Qed.

(** X4. An entry name has no [/] in it, whatever the two URLs are: every
    member lands at the top of the archive. It is never empty either. *)
Theorem entry_name_is_flat (img_url page_url kind : string) :
  In kind ["hero"; "og"] ->
  no_slash (_safe_filename img_url page_url kind) = true
  /\ _safe_filename img_url page_url kind <> EmptyString.
Proof.
  intros Hk. split.
  - apply safe_filename_no_slash. destruct Hk as [<-|[<-|[]]]; reflexivity.
  - unfold _safe_filename, py_or at 1.
    destruct (PyStr.truthy (Url.posix_name (Url.urlparse_path page_url))) eqn:Ht.
    + destruct (Url.posix_name (Url.urlparse_path page_url)); discriminate.
    + discriminate.
Qed.

Lemma entry_name_is_flat_sample :
  no_slash (_safe_filename "https://x/hero.jpg" hotwire "hero") = true
  /\ _safe_filename "https://x/hero.jpg" hotwire "hero" <> EmptyString.
Proof.
  apply (entry_name_is_flat "https://x/hero.jpg" hotwire "hero").
  left. reflexivity.
Defined.

Lemma append_cancel_l (a x y : string) : (a ++ x = a ++ y)%string -> x = y.
Proof.
  induction a as [|c a IH]; intros H; [exact H|].
  apply IH. simpl in H. injection H as H. exact H.
Qed.

(** X5. The hero entry and the og entry of one page never get the same name,
    whatever the two images are called. *)
Theorem hero_and_og_names_differ (hero_url og_url page_url : string) :
  _safe_filename hero_url page_url "hero" <> _safe_filename og_url page_url "og".
Proof.
  unfold _safe_filename. intros H. apply append_cancel_l in H.
  simpl in H. discriminate.
Qed.

(* ===================================================================== *)
(** ** Requests and pauses *)
(* ===================================================================== *)

(** X6. When [requests.get] raises an exception that is not a
    [RequestException], [fetch_page] raises with it. In every other case
    it returns: a response exactly when the server answered with a status
    below 400 or from 600 on, and nothing otherwise; it shows a warning
    exactly when it returns nothing, and it leaves the store alone. *)
Theorem fetch_page_outcome (http_get : string -> Outcome) (target : string)
        (w : World) :
  (http_get target = RaisedOther -> fetch_page http_get target w = None)
  /\ (http_get target <> RaisedOther ->
      exists (r : option Response) (w' : World),
        fetch_page http_get target w = Some (r, w')
        /\ store w' = store w
        /\ trace w' = trace w ++ Get target :: match r with
                                               | Some _ => []
                                               | None => [Warning target]
                                               end
        /\ (forall resp : Response,
              r = Some resp
              <-> http_get target = Responded resp
                  /\ (status_code resp < 400 \/ 600 <= status_code resp)%Z)).
Proof.
  rewrite fetch_page_run. unfold quiet. split.
  - intros ->. reflexivity.
  - intros Hq.
    assert (Hquiet : match http_get target with RaisedOther => false | _ => true end
                     = true) by (destruct (http_get target); congruence).
    rewrite Hquiet. do 2 eexists. split; [reflexivity|].
    split; [reflexivity|]. split; [reflexivity|].
    intros resp. unfold fetched, raises_for_status.
    destruct (http_get target) as [r| |].
    + destruct (400 <=? status_code r)%Z eqn:H1, (status_code r <? 600)%Z eqn:H2;
        cbn [andb]; split;
        try (intros [= <-]; split; [reflexivity | lia]);
        try (intros [[= <-] H]; try reflexivity; lia);
        try discriminate.
    + split; [discriminate | intros [H _]; discriminate].
    + congruence.
Qed.

Lemma prefix_http_https (u : string) :
  PyStr.startswith ("https://" ++ u) "http" = true.
Proof. reflexivity. Qed.

(** X7. Normalizing always gives a URL that starts with [http], leaves such a
    URL as it is (whatever follows the four letters) and, applied twice,
    changes nothing more. *)
Theorem normalize_starts_with_http (u : string) :
  PyStr.startswith (normalize u) "http" = true
  /\ normalize (normalize u) = normalize u
  /\ (normalize u = u <-> PyStr.startswith u "http" = true).
Proof.
  assert (H1 : PyStr.startswith (normalize u) "http" = true).
  { unfold normalize. destruct (PyStr.startswith u "http") eqn:Hu;
      [exact Hu | apply prefix_http_https]. }
  split; [exact H1|]. split.
  - unfold normalize at 1. rewrite H1. reflexivity.
  - split.
    + intros Heq. rewrite <- Heq. exact H1.
    + intros Hu. unfold normalize. rewrite Hu. reflexivity.
Qed.

Lemma filter_fetch_events (http_get : string -> Outcome) (target : string) :
  List.filter is_get_or_sleep (fetch_events http_get target) = [Get target].
Proof. unfold fetch_events. destruct (fetched http_get target); reflexivity. Qed.

Lemma loop_events_paced (http_get : string -> Outcome) (rate_limit : N)
      (total : nat) (urls : list string) :
  forall idx : nat,
    idx + length urls = total ->
    List.filter is_get_or_sleep (loop_events http_get rate_limit total idx urls)
    = paced rate_limit urls.
Proof.
  induction urls as [|u rest IH]; intros idx Hlen; [reflexivity|].
  cbn [loop_events List.filter is_get_or_sleep].
  rewrite !List.filter_app, filter_fetch_events.
  rewrite (IH (S idx)) by (cbn [length] in Hlen; lia).
  destruct rest as [|v rest].
  - cbn [length] in Hlen.
    replace (idx <? total - 1)%nat with false
      by (symmetry; apply Nat.ltb_ge; lia).
    reflexivity.
  - cbn [length] in Hlen.
    replace (idx <? total - 1)%nat with true
      by (symmetry; apply Nat.ltb_lt; lia).
    reflexivity.
Qed.

(** X8. The scraping loop returns exactly when no request raises an
    exception that is not a [RequestException]. When it returns, it has
    requested each URL once, in input order, and paused for the chosen
    delay between two consecutive requests: never before the first and
    never after the last. *)
Theorem scrape_loop_is_paced (http_get : string -> Outcome)
        (parse : string -> PageElement) (rate_limit : N)
        (urls : list string) (w : World) :
  ((exists (results : list ref) (w' : World),
       scrape_loop http_get parse rate_limit (length urls) 0 urls [] w
       = Some (results, w'))
   <-> forallb (quiet http_get) urls = true)
  /\ forall (results : list ref) (w' : World),
       scrape_loop http_get parse rate_limit (length urls) 0 urls [] w
       = Some (results, w') ->
       exists events : list Event,
         trace w' = trace w ++ events
         /\ List.filter is_get_or_sleep events = paced rate_limit urls.
Proof.
  rewrite scrape_loop_run. destruct (forallb (quiet http_get) urls).
  - split; [split; eauto|]. intros results w' [= <- <-].
    eexists. split; [reflexivity|]. apply loop_events_paced. reflexivity.
  - split; [split; [intros (r & w' & H); discriminate | discriminate]|].
    discriminate.
Qed.




Lemma member_of_flat (http_get : string -> Outcome) (d : PageResult) (e : ZipEntry) :
  In e (flat_map (member_of http_get) (tasks_of d)) ->
  no_slash (arcname e) = true.
Proof.
  intros H. apply in_flat_map in H as ([[img page] kind] & Ht & He).
  apply tasks_of_member in Ht as (_ & _ & Hkind).
  unfold member_of in He. destruct (fetched http_get img); [|destruct He].
  destruct He as [<-|[]]. cbn [arcname]. apply safe_filename_no_slash.
  destruct Hkind as [[-> _]|[-> _]]; reflexivity.
Qed.

Lemma cut_keeps (p : ascii -> bool) (c : ascii) (s : string) :
  PyStr.all_chars p s = true -> PyStr.all_chars p (fst (PyStr.cut c s)) = true.
Proof.
  induction s as [|a s IH]; [reflexivity|].
  cbn. intros H. apply andb_prop in H as [Ha Hs].
  destruct (Ascii.eqb a c); [reflexivity|].
  destruct (PyStr.cut c s) as [pre post] eqn:Hcut. cbn in *.
  rewrite Ha, (IH Hs). reflexivity.
Qed.

(** Where the path separator is [/], storing a name adds no [/] to it. *)
Lemma stored_name_posix (name : string) :
  no_slash name = true -> no_slash (stored_name "/" name) = true.
Proof. intros H. unfold stored_name. cbn. apply cut_keeps. exact H. Qed.

(** X10. When [build_zip] returns, the archive has at most one member
    per task, and no member name has a [/] in it, neither as passed to
    [writestr] nor, on a platform whose path separator is [/], as stored
    in the archive. *)
Theorem archive_members_are_flat (http_get : string -> Outcome)
        (urlparse_rejects : string -> bool)
        (members_bytes : list ZipEntry -> list Byte.byte)
        (w : World) (rs : list ref) (ds : list PageResult)
        (out : option (list Byte.byte)) (w' : World) :
  points_to w rs ds ->
  build_zip http_get urlparse_rejects members_bytes rs w = Some (out, w') ->
  exists zf : list ZipEntry,
    (out = None \/ out = Some (archive_bytes members_bytes zf))
    /\ length zf <= length (flat_map tasks_of ds)
    /\ (forall e : ZipEntry,
          In e zf ->
          no_slash (arcname e) = true
          /\ no_slash (stored_name "/" (arcname e)) = true).
Proof.
  intros Hp H.
  rewrite (build_zip_run http_get urlparse_rejects members_bytes w rs ds Hp) in H.
  destruct (forallb _ (flat_map tasks_of ds)); [|discriminate].
  injection H as <- _.
  exists (flat_map (member_of http_get) (flat_map tasks_of ds)).
  split.
  { destruct (flat_map tasks_of ds); [left | right]; reflexivity. }
  split.
  - induction (flat_map tasks_of ds) as [|[[img page] kind] ts IH]; [reflexivity|].
    cbn [flat_map]. rewrite length_app. cbn [length].
    assert (length (member_of http_get (img, page, kind)) <= 1).
    { unfold member_of. destruct (fetched http_get img); cbn; lia. }
    lia.
  - intros e He. apply in_flat_map in He as (t & Ht & He).
    apply in_flat_map in Ht as (d & _ & Ht).
    assert (Hflat : no_slash (arcname e) = true).
    { apply (member_of_flat http_get d e). apply in_flat_map. exists t. auto. }
    split; [exact Hflat | apply stored_name_posix, Hflat].
Qed.

Lemma archive_members_are_flat_sample :
  exists zf : list ZipEntry,
    (Some (sample_members
             [{| arcname := "hotwire__hero__hero.jpg"; entry_data := jpeg |}])
     = None
     \/ Some (sample_members
                [{| arcname := "hotwire__hero__hero.jpg"; entry_data := jpeg |}])
        = Some (archive_bytes sample_members zf))
    /\ length zf <= length (flat_map tasks_of (store sample_world))
    /\ (forall e : ZipEntry,
          In e zf ->
          no_slash (arcname e) = true
          /\ no_slash (stored_name "/" (arcname e)) = true).
Proof.
  apply (archive_members_are_flat sample_net Url.unmatched_bracket sample_members
           sample_world [0] (store sample_world) _
           {| store := store sample_world;
              trace := [Progress 1 2; Get "https://x/hero.jpg"; Sleep 500;
                        Progress 2 2; Get "https://x/img.png"; Sleep 500] |}).
  - repeat constructor.
  - vm_compute. reflexivity.
Defined.

(** Where the path separator is the backslash, a backslash in the last
    segment of the image URL is stored as [/]. *)
Example backslash_is_stored_as_slash :
  stored_name "092" (_safe_filename ("https://x/a" ++ String "092" "b.png") hotwire "hero")
  = "hotwire__hero__a/b.png".
Proof. vm_compute. reflexivity. Qed.

(* ===================================================================== *)
(** ** The summary, the ZIP step and the CSV export *)
(* ===================================================================== *)

Lemma load_all_run (w : World) (rs : list ref) (ds : list PageResult) :
  points_to w rs ds -> load_all rs w = Some (ds, w).
Proof.
  unfold points_to. induction 1 as [|l d rs ds Hl _ IH]; [reflexivity|].
  cbn [load_all]. unfold mbind, M_bind, load. rewrite Hl.
  fold (@mbind M M_bind). unfold mbind, M_bind. rewrite IH. reflexivity.
Qed.

Lemma filter_length_le {A} (p q : A -> bool) (l : list A) :
  (forall x, In x l -> p x = true -> q x = true) ->
  length (List.filter p l) <= length (List.filter q l).
Proof.
  induction l as [|x l IH]; intros H; [reflexivity|].
  cbn [List.filter].
  assert (IH' : length (List.filter p l) <= length (List.filter q l))
    by (apply IH; intros y Hy; apply H; right; exact Hy).
  destruct (p x) eqn:Hp.
  - rewrite (H x (or_introl eq_refl) Hp). cbn [length]. lia.
  - destruct (q x); cbn [length]; lia.
Qed.

Lemma scraped_image_needs_ok (http_get : string -> Outcome)
      (parse : string -> PageElement) (target : string) :
  let d := scraped http_get parse target in
  (image_found (hero_image d) = true -> is_ok d = true)
  /\ (image_found (og_image d) = true -> is_ok d = true)
  /\ (is_ok d = true <-> fetched http_get target <> None).
Proof.
  unfold scraped, is_ok. destruct (fetched http_get target); cbn;
    repeat split; congruence.
Qed.

(** X11. When the scraping loop returns, the summary counts are
    consistent: a page counts as scraped exactly when its fetch
    succeeded, and no more hero images and no more og images are counted
    than pages scraped. *)
Theorem summary_counts_are_consistent (http_get : string -> Outcome)
        (parse : string -> PageElement) (rate_limit : N)
        (urls : list string) (w : World) (results : list ref) (w' : World) :
  scrape_loop http_get parse rate_limit (length urls) 0 urls [] w
  = Some (results, w') ->
  exists ds : list PageResult,
    load_all results w' = Some (ds, w')
    /\ ok_count ds
       = length (List.filter (fun u => match fetched http_get u with
                                       | Some _ => true
                                       | None => false
                                       end) urls)
    /\ hero_count ds <= ok_count ds
    /\ og_count ds <= ok_count ds
    /\ ok_count ds <= length urls.
Proof.
  rewrite scrape_loop_run. destruct (forallb (quiet http_get) urls); [|discriminate].
  intros [= <- <-].
  exists (map (scraped http_get parse) urls).
  split.
  { apply load_all_run. cbn [app].
    pose proof (loop_points_to (store w)
                  (trace w ++ loop_events http_get rate_limit (length urls) 0 urls)
                  (map (scraped http_get parse) urls)) as H.
    rewrite length_map in H. exact H. }
  split.
  { unfold ok_count. induction urls as [|u l IH]; [reflexivity|].
    cbn [map List.filter].
    unfold is_ok at 1, scraped at 1.
    destruct (fetched http_get u); cbn [status length]; rewrite IH; reflexivity. }
  split; [|split].
  - apply filter_length_le. intros d Hd. apply in_map_iff in Hd as (u & <- & _).
    apply (scraped_image_needs_ok http_get parse u).
  - apply filter_length_le. intros d Hd. apply in_map_iff in Hd as (u & <- & _).
    apply (scraped_image_needs_ok http_get parse u).
  - unfold ok_count. rewrite <- (length_map (scraped http_get parse) urls).
    apply List.filter_length_le.
Qed.

Lemma summary_counts_are_consistent_sample :
  exists ds : list PageResult,
    load_all [0; 1]
             {| store := map (scraped sample_net sample_parse)
                             [hotwire; "https://brightdata.com/missing"];
                trace := loop_events sample_net 1500 2 0
                                     [hotwire; "https://brightdata.com/missing"] |}
    = Some (ds, {| store := map (scraped sample_net sample_parse)
                                [hotwire; "https://brightdata.com/missing"];
                   trace := loop_events sample_net 1500 2 0
                                        [hotwire; "https://brightdata.com/missing"] |})
    /\ ok_count ds
       = length (List.filter (fun u => match fetched sample_net u with
                                       | Some _ => true
                                       | None => false
                                       end)
                             [hotwire; "https://brightdata.com/missing"])
    /\ hero_count ds <= ok_count ds
    /\ og_count ds <= ok_count ds
    /\ ok_count ds <= length [hotwire; "https://brightdata.com/missing"].
Proof.
  apply (summary_counts_are_consistent sample_net sample_parse 1500
           [hotwire; "https://brightdata.com/missing"] empty_world).
  vm_compute. reflexivity.
Defined.





Lemma quote_free_split (a : string) :
  forall a' x y : string,
    quote_free a = true -> quote_free a' = true ->
    (a ++ String "034" x = a' ++ String "034" y)%string ->
    a = a' /\ x = y.
Proof.
  unfold quote_free.
  induction a as [|c a IH]; intros [|c' a'] x y Ha Ha' H; cbn in *.
  - injection H as H. auto.
  - injection H as Hc _. subst c'. discriminate.
  - injection H as Hc _. subst c. discriminate.
  - injection H as Hc H. subst c'.
    apply andb_prop in Ha as [_ Ha]. apply andb_prop in Ha' as [_ Ha'].
    destruct (IH a' x y Ha Ha' H) as [-> ->]. auto.
Qed.

Lemma status_str_plain (s : Status) : quote_free (status_str s) = true.
Proof. destruct s; reflexivity. Qed.

Lemma status_str_inj (s t : Status) : status_str s = status_str t -> s = t.
Proof. destruct s, t; cbn; intros H; try reflexivity; discriminate. Qed.

(** X13. The CSV export has the header and one row per result, in result
    order. As long as no URL and no image field holds a double quote, a
    row determines its result: the URL, the status and both image fields,
    a missing image and an empty one looking alike. *)
Theorem csv_rows_determine_results (ds : list PageResult) (r1 r2 : PageResult) :
  quote_free (url r1) = true -> quote_free (url r2) = true ->
  quote_free (or_empty (hero_image r1)) = true ->
  quote_free (or_empty (hero_image r2)) = true ->
  quote_free (or_empty (og_image r1)) = true ->
  quote_free (or_empty (og_image r2)) = true ->
  length (csv_lines ds) = 1 + length ds
  /\ csv_lines ds !! 0 = Some csv_header
  /\ (forall (i : nat) (d : PageResult),
        ds !! i = Some d -> csv_lines ds !! (1 + i) = Some (csv_row d))
  /\ (csv_row r1 = csv_row r2 ->
      url r1 = url r2 /\ status r1 = status r2
      /\ or_empty (hero_image r1) = or_empty (hero_image r2)
      /\ or_empty (og_image r1) = or_empty (og_image r2)).
Proof.
  intros Hu1 Hu2 Hh1 Hh2 Ho1 Ho2. split; [|split; [reflexivity|split]].
  - unfold csv_lines. cbn [length]. rewrite length_map. reflexivity.
  - intros i d Hd. change (csv_lines ds !! (1 + i)) with (map csv_row ds !! i).
    rewrite list_lookup_fmap, Hd. reflexivity.
  - unfold csv_row, dquote. cbn [append]. intros H. injection H as H.
    apply (quote_free_split _ _ _ _ Hu1 Hu2) in H as [Hurl H].
    injection H as H.
    apply (quote_free_split _ _ _ _ Hh1 Hh2) in H as [Hhero H].
    injection H as H.
    apply (quote_free_split _ _ _ _ Ho1 Ho2) in H as [Hog H].
    injection H as H.
    apply (quote_free_split _ _ _ _ (status_str_plain _) (status_str_plain _))
      in H as [Hst _].
    apply status_str_inj in Hst. auto.
Qed.

Lemma csv_rows_determine_results_sample :
  length (csv_lines (store sample_world)) = 1 + length (store sample_world)
  /\ csv_lines (store sample_world) !! 0 = Some csv_header
  /\ (forall (i : nat) (d : PageResult),
        store sample_world !! i = Some d ->
        csv_lines (store sample_world) !! (1 + i) = Some (csv_row d))
  /\ (csv_row (scraped sample_net sample_parse hotwire)
      = csv_row (scraped sample_net sample_parse "https://brightdata.com/missing") ->
      url (scraped sample_net sample_parse hotwire)
      = url (scraped sample_net sample_parse "https://brightdata.com/missing")
      /\ status (scraped sample_net sample_parse hotwire)
         = status (scraped sample_net sample_parse "https://brightdata.com/missing")
      /\ or_empty (hero_image (scraped sample_net sample_parse hotwire))
         = or_empty (hero_image (scraped sample_net sample_parse
                                         "https://brightdata.com/missing"))
      /\ or_empty (og_image (scraped sample_net sample_parse hotwire))
         = or_empty (og_image (scraped sample_net sample_parse
                                       "https://brightdata.com/missing"))).
Proof.
  apply (csv_rows_determine_results (store sample_world)
           (scraped sample_net sample_parse hotwire)
           (scraped sample_net sample_parse "https://brightdata.com/missing"));
    reflexivity.
Defined.

(** With double quotes inside the fields the export is ambiguous: two
    results that differ in URL and hero image have the same row. *)
Example quoted_fields_collide :
  csv_row quoted_a = csv_row quoted_b
  /\ url quoted_a <> url quoted_b
  /\ hero_image quoted_a <> hero_image quoted_b.
Proof. split; [reflexivity|]. split; discriminate. Qed.

Example csv_row_of_failed_page :
  csv_row (scraped sample_net sample_parse "https://brightdata.com/missing")
  = (dquote ++ "https://brightdata.com/missing" ++ dquote ++ "," ++ dquote ++ dquote
     ++ "," ++ dquote ++ dquote ++ "," ++ dquote ++ "error" ++ dquote)%string.
Proof. reflexivity. Qed.

(* ===================================================================== *)
(** ** From the text box to the exports *)
(* ===================================================================== *)

Lemma all_chars_lstrip (p : ascii -> bool) (s : string) :
  PyStr.all_chars p s = true -> PyStr.all_chars p (PyStr.lstrip s) = true.
Proof.
  induction s as [|a s IH]; [reflexivity|].
  intros H. cbn [PyStr.lstrip]. destruct (PyStr.is_space a); [|exact H].
  apply IH. cbn in H. apply andb_prop in H as [_ H]. exact H.
Qed.

Lemma all_chars_rstrip (p : ascii -> bool) (s : string) :
  PyStr.all_chars p s = true -> PyStr.all_chars p (PyStr.rstrip s) = true.
Proof.
  induction s as [|a s IH]; [reflexivity|].
  intros H. cbn in H. apply andb_prop in H as [Ha Hs]. cbn [PyStr.rstrip].
  destruct (PyStr.is_space a && negb (PyStr.truthy (PyStr.rstrip s)));
    [reflexivity|].
  cbn. rewrite Ha, (IH Hs). reflexivity.
Qed.

Lemma all_chars_strip (p : ascii -> bool) (s : string) :
  PyStr.all_chars p s = true -> PyStr.all_chars p (PyStr.strip s) = true.
Proof. intros H. apply all_chars_rstrip, all_chars_lstrip, H. Qed.

Lemma lstrip_blank (s : string) :
  PyStr.all_chars PyStr.is_space s = true -> PyStr.lstrip s = EmptyString.
Proof.
  induction s as [|a s IH]; [reflexivity|].
  intros H. cbn in H. apply andb_prop in H as [Ha Hs].
  cbn [PyStr.lstrip]. rewrite Ha. apply IH, Hs.
Qed.

(** Every line keeps to what holds of all characters of the text that are
    no line boundary. *)
Lemma splitlines_from_chars (p : ascii -> bool) (s : string) :
  (forall cur : string,
      PyStr.all_chars p cur = true ->
      PyStr.all_chars (fun a => is_linebreak a || p a) s = true ->
      Forall (fun line => PyStr.all_chars p line = true) (splitlines_from cur s))
  /\ (forall (b : ascii) (s'' : string),
        s = String b s'' ->
        forall cur : string,
          PyStr.all_chars p cur = true ->
          PyStr.all_chars (fun a => is_linebreak a || p a) s'' = true ->
          Forall (fun line => PyStr.all_chars p line = true) (splitlines_from cur s'')).
Proof.
  induction s as [|a s' [IH1 IH2]].
  - split; [|discriminate]. intros cur Hcur _. cbn.
    destruct (PyStr.truthy cur); repeat constructor. exact Hcur.
  - split; [|intros b s'' [= <- <-]; exact IH1].
    intros cur Hcur Hs. cbn in Hs. apply andb_prop in Hs as [Ha Hs'].
    cbn [splitlines_from]. destruct (is_linebreak a) eqn:Hlb.
    + constructor; [exact Hcur|]. destruct s' as [|b s'']; [constructor|].
      destruct (Ascii.eqb a "013" && Ascii.eqb b "010").
      * apply (IH2 b s'' eq_refl); [reflexivity|].
        cbn in Hs'. apply andb_prop in Hs' as [_ H]. exact H.
      * apply IH1; [reflexivity | exact Hs'].
    + apply IH1; [|exact Hs']. rewrite all_chars_app, Hcur. cbn.
      cbn in Ha. rewrite Ha. reflexivity.
Qed.

Lemma all_chars_weaken (p q : ascii -> bool) (s : string) :
  (forall a, p a = true -> q a = true) ->
  PyStr.all_chars p s = true -> PyStr.all_chars q s = true.
Proof.
  intros Hpq. induction s as [|a s IH]; [reflexivity|].
  cbn. intros H. apply andb_prop in H as [Ha Hs].
  rewrite (Hpq a Ha), (IH Hs). reflexivity.
Qed.

Lemma all_chars_true (s : string) : PyStr.all_chars (fun _ => true) s = true.
Proof. induction s as [|a s IH]; [reflexivity | exact IH]. Qed.

Lemma raw_url_line (url_text u : string) :
  In u (raw_urls_of url_text) ->
  exists line : string,
    In line (splitlines url_text) /\ u = PyStr.strip line /\ PyStr.truthy u = true.
Proof.
  unfold raw_urls_of. intros H. apply in_flat_map in H as (line & Hl & Hu).
  destruct (PyStr.truthy (PyStr.strip line)) eqn:Ht; [|destruct Hu].
  destruct Hu as [<-|[]]. exists line. auto.
Qed.

(** X14. Whatever is typed into the text box, the URLs read from it are never
    empty, carry no white space at either end and hold no line boundary;
    after normalization each starts with [http]. *)
Theorem raw_urls_are_clean (url_text u : string) :
  In u (raw_urls_of url_text) ->
  u <> EmptyString
  /\ PyStr.strip u = u
  /\ PyStr.all_chars (fun a => negb (is_linebreak a)) u = true
  /\ PyStr.startswith (normalize u) "http" = true.
Proof.
  intros H. apply raw_url_line in H as (line & Hl & -> & Ht).
  split; [intros Hempty; rewrite Hempty in Ht; discriminate|].
  split; [apply strip_idem|]. split.
  - apply all_chars_strip.
    destruct (splitlines_from_chars (fun a => negb (is_linebreak a)) url_text)
      as [Hlines _].
    specialize (Hlines EmptyString eq_refl).
    rewrite Forall_forall in Hlines. apply Hlines.
    + apply (all_chars_weaken (fun _ => true)); [|apply all_chars_true].
      intros a _. destruct (is_linebreak a); reflexivity.
    + apply list_elem_of_In. exact Hl.
  - unfold normalize.
    destruct (PyStr.startswith (PyStr.strip line) "http") eqn:Hs;
      [exact Hs | reflexivity].
Qed.

Lemma raw_urls_are_clean_sample :
  "brightdata.com/a" <> EmptyString
  /\ PyStr.strip "brightdata.com/a" = "brightdata.com/a"
  /\ PyStr.all_chars (fun a => negb (is_linebreak a)) "brightdata.com/a" = true
  /\ PyStr.startswith (normalize "brightdata.com/a") "http" = true.
Proof.
  apply (raw_urls_are_clean ("  brightdata.com/a  " ++ newline ++ newline ++ hotwire)
                            "brightdata.com/a").
  vm_compute. left. reflexivity.
Defined.

Lemma blank_text_has_no_urls (url_text : string) :
  PyStr.all_chars PyStr.is_space url_text = true -> raw_urls_of url_text = [].
Proof.
  intros Hblank. unfold raw_urls_of.
  destruct (splitlines_from_chars PyStr.is_space url_text) as [Hlines _].
  specialize (Hlines EmptyString eq_refl).
  assert (Hall : Forall (fun line => PyStr.all_chars PyStr.is_space line = true)
                        (splitlines url_text)).
  { apply Hlines. apply (all_chars_weaken PyStr.is_space); [|exact Hblank].
    intros a Ha. rewrite Ha. apply orb_true_r. }
  induction Hall as [|line lines Hline _ IH]; [reflexivity|].
  cbn [flat_map]. unfold PyStr.strip at 1. rewrite (lstrip_blank line Hline).
  exact IH.
Qed.

Section MainRun.

Variable http_get : string -> Outcome.
Variable parse : string -> PageElement.
Variable urlparse_rejects : string -> bool.
Variable members_bytes : list ZipEntry -> list Byte.byte.

(** X15. A text box that holds nothing but white space is rejected: [main]
    shows its message and does nothing else, no request and no dict. *)
Theorem blank_input_is_rejected (url_text : string) (rate_limit : N)
        (download_images : bool) (w : World) :
  PyStr.all_chars PyStr.is_space url_text = true ->
  main_run http_get parse urlparse_rejects members_bytes url_text rate_limit
           download_images w
  = Some (None, {| store := store w; trace := trace w ++ [ErrorMessage] |}).
Proof.
  intros Hblank. unfold main_run. rewrite (blank_text_has_no_urls url_text Hblank).
  reflexivity.
Qed.


End MainRun.

Lemma blank_input_is_rejected_sample :
  main_run sample_net sample_parse Url.unmatched_bracket sample_members
           ("  " ++ newline ++ " ") 1500 true empty_world
  = Some (None, {| store := store empty_world;
                   trace := trace empty_world ++ [ErrorMessage] |}).
Proof.
  apply (blank_input_is_rejected sample_net sample_parse Url.unmatched_bracket
           sample_members ("  " ++ newline ++ " ") 1500 true empty_world).
  reflexivity.
Defined.


(** A run of [main] on two lines: the product page and a page that does
    not answer. *)
Example main_run_sample :
  exists w' : World,
    main_run sample_net sample_parse Url.unmatched_bracket sample_members
             (hotwire ++ newline ++ " brightdata.com/missing ") 1500 true empty_world
    = Some (Some ([csv_header;
                   csv_row {| url := hotwire; hero_image := Some "https://x/hero.jpg";
                              og_image := Some "https://x/img.png"; status := ok |};
                   csv_row {| url := "https://brightdata.com/missing";
                              hero_image := None; og_image := None;
                              status := error |}],
                  Some (sample_members
                          [{| arcname := "hotwire__hero__hero.jpg";
                              entry_data := jpeg |}])),
            w')
    /\ List.filter is_get_or_sleep (trace w')
       = [Get hotwire; Sleep 1500; Get "https://brightdata.com/missing";
          Get "https://x/hero.jpg"; Sleep 500; Get "https://x/img.png"; Sleep 500].
Proof. eexists. vm_compute. split; reflexivity. Qed.

(** The same text with a line whose host has an empty label: the request
    raises, and [main] with it, before anything is exported. *)
Example main_run_bad_host :
  main_run faulty_net sample_parse Url.unmatched_bracket sample_members
           (hotwire ++ newline ++ "brightdata..com/x") 1500 true empty_world
  = None.
Proof. vm_compute. reflexivity. Qed.

(* ===================================================================== *)
(** ** The further theorems at the sample inputs *)
(* ===================================================================== *)

Lemma hero_image_origin_sample :
  exists (div img : PageElement) (src : string),
    In div (descendants page_primary) /\ is_named "div" div = true
    /\ (exists cls tok : string,
          get_attr div "class" = Some cls /\ In tok (PyStr.split_ws cls)
          /\ PyStr.contains "s_col" tok = true)
    /\ In img (descendants div) /\ is_named "img" img = true
    /\ (exists cls tok : string,
          get_attr img "class" = Some cls /\ In tok (PyStr.split_ws cls)
          /\ PyStr.contains "no_lazy" tok = true)
    /\ get_attr img "src" = Some src /\ src <> EmptyString
    /\ "https://x/hero.jpg" = PyStr.strip src.
Proof.
  apply (hero_image_origin page_primary "https://x/hero.jpg").
  vm_compute. reflexivity.
Defined.

Lemma extracted_urls_are_trimmed_sample :
  PyStr.strip "https://x/img.png" = "https://x/img.png"
  /\ forall (a : ascii) (r : string),
       "https://x/img.png" = String a r -> PyStr.is_space a = false.
Proof.
  apply (extracted_urls_are_trimmed page_primary "https://x/img.png").
  left. vm_compute. reflexivity.
Defined.

Lemma extraction_miss_is_ok_sample :
  exists (l : ref) (w' : World),
    scrape_images sample_net sample_parse "https://x/hero.jpg" empty_world
    = Some (l, w')
    /\ store w' !! l
       = Some {| url := "https://x/hero.jpg"; hero_image := None; og_image := None;
                 status := ok |}
    /\ trace w' = trace empty_world ++ [Get "https://x/hero.jpg"].
Proof.
  apply (extraction_miss_is_ok sample_net sample_parse "https://x/hero.jpg"
           empty_world {| status_code := 200; text := ""; content := jpeg |}).
  - reflexivity.
  - reflexivity.
  - intros e He. vm_compute in He. destruct He.
Defined.
